(** * Verification of the GLTF/GLB upload server (src/server.py)

    A shallow embedding of the request handler [VeoRequestHandler] and of the
    stubbed collaborator [generate_video_using_veo], together with the parts
    of the Python standard library they call (str methods, [int],
    [posixpath.normpath], [pathlib], [cgi.parse_header], [tempfile.mkstemp],
    the response writer of [http.server]).

    Conventions.
    - A Python [str] or [bytes] is a Rocq [string], a sequence of 8-bit
      characters (http.server decodes the request head as ISO-8859-1).
    - The file system is a finite map from canonical absolute paths (the list
      of names below "/") to entries; there are no symbolic links and no
      permissions.  Names and paths have the length limits of Linux
      ([NAME_MAX], [PATH_MAX]); of the device errors only a failing write of
      the upload is modelled (the [storage] of the environment).
    - Requests are HTTP/1.0 or HTTP/1.1 requests: for a request line that
      names HTTP/0.9, http.server writes no status line and no header, and
      such requests are not modelled.
    - A handler is a computation in the monad [M]: it threads the [world]
      (file system, pending temporary names, bytes written to the socket)
      and either returns or raises a Python exception.
    - The access log ([log_message]) is not modelled. *)

From Stdlib Require Import ZArith NArith String Ascii List Bool Lia.
From Stdlib Require Import DecimalString.
From stdpp Require Import base option gmap strings list.

Local Open Scope string_scope.
Local Open Scope list_scope.
Local Open Scope Z_scope.

(** ** Python exceptions and results *)

Inductive exn : Type :=
| ValueError
| TypeError
| KeyError
| FileExistsError
| FileNotFoundError
| IsADirectoryError
| NotADirectoryError
| AttributeError
| OSError (errno : Z)
| Exception (what : string).

(** The errno values of the plain [OSError]s of the model. *)
Definition ENAMETOOLONG : Z := 36.
Definition ENOSPC : Z := 28.

Inductive result (A : Type) : Type :=
| Ok (a : A)
| Raise (e : exn).

Arguments Ok {A} a.
Arguments Raise {A} e.

(** ** The str methods the server uses *)

Module Py.

(** [s.startswith(p)] *)
Definition startswith (p s : string) : bool := String.prefix p s.

(** [s.split(c, 1)[0]]: the text before the first [c], all of [s] when there
    is none. *)
Fixpoint split1_head (c : ascii) (s : string) : string :=
  match s with
  | EmptyString => EmptyString
  | String a r => if Ascii.eqb a c then EmptyString else String a (split1_head c r)
  end.

(** [s.lstrip(c)] for a one-character set. *)
Fixpoint lstrip_char (c : ascii) (s : string) : string :=
  match s with
  | EmptyString => EmptyString
  | String a r => if Ascii.eqb a c then lstrip_char c r else s
  end.

(** [s.split(c)]: never empty, ["a//b".split("/") = ["a"; ""; "b"]]. *)
Fixpoint split (c : ascii) (s : string) : list string :=
  match s with
  | EmptyString => [EmptyString]
  | String a r =>
      if Ascii.eqb a c then EmptyString :: split c r
      else match split c r with
           | h :: t => String a h :: t
           | [] => [String a EmptyString]
           end
  end.

(** [sep.join(l)] *)
Fixpoint join (sep : string) (l : list string) : string :=
  match l with
  | [] => EmptyString
  | [x] => x
  | x :: rest => x +:+ sep +:+ join sep rest
  end.

(** [c * n] for a string [c]. *)
Fixpoint repeat_str (c : string) (n : nat) : string :=
  match n with
  | O => EmptyString
  | S n' => c +:+ repeat_str c n'
  end.

(** Unicode white space among the first 256 code points
    ([str.isspace], used by [str.strip] and by [int]). *)
Definition isspace (c : ascii) : bool :=
  let n := N_of_ascii c in
  ((9 <=? n) && (n <=? 13) || (28 <=? n) && (n <=? 32)
   || (n =? 133) || (n =? 160))%N.

Fixpoint lstrip (s : string) : string :=
  match s with
  | EmptyString => EmptyString
  | String a r => if isspace a then lstrip r else s
  end.

Fixpoint rstrip (s : string) : string :=
  match s with
  | EmptyString => EmptyString
  | String a r =>
      match rstrip r with
      | EmptyString => if isspace a then EmptyString else String a EmptyString
      | r' => String a r'
      end
  end.

(** [s.strip()] *)
Definition strip (s : string) : string := rstrip (lstrip s).

(** [c.lower()] on the first 256 code points: the ASCII capitals and the
    capitals of Latin-1 (192 to 222, the multiplication sign 215 apart). *)
Definition lower_char (c : ascii) : ascii :=
  let n := N_of_ascii c in
  if ((65 <=? n) && (n <=? 90))%N then ascii_of_N (n + 32)
  else if ((192 <=? n) && (n <=? 222) && negb (n =? 215))%N then ascii_of_N (n + 32)
  else c.

Fixpoint lower (s : string) : string :=
  match s with
  | EmptyString => EmptyString
  | String a r => String (lower_char a) (lower r)
  end.

(** [s.rfind(".")], as an option. *)
Fixpoint rfind_dot (s : string) : option nat :=
  match s with
  | EmptyString => None
  | String a r =>
      match rfind_dot r with
      | Some i => Some (S i)
      | None => if Ascii.eqb a "." then Some O else None
      end
  end.

(** [s[i:]] *)
Fixpoint drop (i : nat) (s : string) : string :=
  match i, s with
  | O, _ => s
  | S i', String _ r => drop i' r
  | S _, EmptyString => EmptyString
  end.

(** [str(n)] for a length. *)
Definition str_of_nat (n : nat) : string :=
  NilZero.string_of_uint (Nat.to_uint n).

(** Truth value of an optional str: [None] and [""] are falsy. *)
Definition truthy (v : option string) : bool :=
  match v with
  | None => false
  | Some s => negb (String.eqb s "")
  end.

(** *** [int(s)] for a str, base 10 *)

Definition digit_value (c : ascii) : option Z :=
  let n := N_of_ascii c in
  if ((48 <=? n) && (n <=? 57))%N then Some (Z.of_N n - 48) else None.

(** White space for [int]: [Py_ISSPACE] on the ASCII characters, which
    leaves 28 to 31 out, and the Unicode spaces 133 and 160, which
    [_PyUnicode_TransformDecimalAndSpaceToASCII] turns into " ". *)
Definition int_space (c : ascii) : bool :=
  let n := N_of_ascii c in
  ((9 <=? n) && (n <=? 13) || (n =? 32) || (n =? 133) || (n =? 160))%N.

Fixpoint skip_int_space (s : string) : string :=
  match s with
  | EmptyString => EmptyString
  | String a r => if int_space a then skip_int_space r else s
  end.

(** The scan of [long_from_string_base]: digits and single underscores.
    Returns the value read, the number of digits, the last character read
    and the rest; [None] on a doubled underscore. *)
Fixpoint scan_digits (s : string) (prev : ascii) (acc : Z) (digits : N)
  : option (Z * N * ascii * string) :=
  match s with
  | EmptyString => Some (acc, digits, prev, s)
  | String c r =>
      if Ascii.eqb c "_" then
        if Ascii.eqb prev "_" then None else scan_digits r c acc digits
      else
        match digit_value c with
        | Some d => scan_digits r c (10 * acc + d) (digits + 1)%N
        | None => Some (acc, digits, prev, s)
        end
  end.

(** [sys.get_int_max_str_digits()], the default. *)
Definition int_max_str_digits : N := 4300.

Definition int_of_str (s : string) : result Z :=
  let s := skip_int_space s in
  let '(sign, s) :=
    match s with
    | String "+" r => (1, r)
    | String "-" r => (-1, r)
    | _ => (1, s)
    end in
  if startswith "_" s then Raise ValueError else
  match scan_digits s zero 0 0%N with
  | None => Raise ValueError
  | Some (v, digits, prev, rest) =>
      if Ascii.eqb prev "_" then Raise ValueError
      else if (digits =? 0)%N then Raise ValueError
      else if negb (String.eqb (skip_int_space rest) "") then Raise ValueError
      else if (int_max_str_digits <? digits)%N then Raise ValueError
      else Ok (sign * v)
  end.

End Py.

(** ** posixpath and pathlib *)

(** [posixpath.normpath] *)
Definition normpath (path : string) : string :=
  if String.eqb path "" then "." else
  let initial_slashes : nat :=
    if Py.startswith "/" path then
      if Py.startswith "//" path && negb (Py.startswith "///" path)
      then 2%nat else 1%nat
    else 0%nat in
  let comps := Py.split "/" path in
  let new_comps :=
    fold_left
      (fun (new_comps : list string) (comp : string) =>
         if String.eqb comp "" || String.eqb comp "." then new_comps
         else if negb (String.eqb comp "..")
                 || (Nat.eqb initial_slashes 0
                     && Nat.eqb (List.length new_comps) 0)
                 || (negb (Nat.eqb (List.length new_comps) 0)
                     && String.eqb (List.last new_comps "") "..")
         then new_comps ++ [comp]
         else if negb (Nat.eqb (List.length new_comps) 0)
         then List.removelast new_comps
         else new_comps)
      comps [] in
  let path := Py.join "/" new_comps in
  let path := Py.repeat_str "/" initial_slashes +:+ path in
  if String.eqb path "" then "." else path.

(** A [pathlib.PurePosixPath]: its root ("", "/" or "//") and the names
    after it.  Names are never empty or "."; ".." is kept. *)
Record PurePath : Type := MkPath { root : string; parts : list string }.

(** [Path(s)], after [_PosixFlavour.splitroot] and [parse_parts]. *)
Definition Path (s : string) : PurePath :=
  let stripped := Py.lstrip_char "/" s in
  let root :=
    if Py.startswith "/" s then
      if Nat.eqb (String.length s - String.length stripped) 2 then "//" else "/"
    else "" in
  MkPath root
    (List.filter (fun x => negb (String.eqb x "") && negb (String.eqb x "."))
       (Py.split "/" stripped)).

(** [a / b] ([join_parsed_parts]): an anchored [b] replaces [a]. *)
Definition truediv (a b : PurePath) : PurePath :=
  if String.eqb (root b) "" then MkPath (root a) (parts a ++ parts b) else b.

Infix "//" := truediv (at level 40, left associativity).

(** [p.name] *)
Definition name (p : PurePath) : string := List.last (parts p) "".

(** [p.suffix] *)
Definition suffix (p : PurePath) : string :=
  let name := name p in
  match Py.rfind_dot name with
  | Some i =>
      if Nat.ltb 0 i && Nat.ltb i (String.length name - 1)
      then Py.drop i name else ""
  | None => ""
  end.

(** ** The file system *)

Inductive entry : Type :=
| File (content : string)
| Dir.

Abbreviation filesystem := (gmap (list string) entry).

(** The entry at a canonical location; "/" is always a directory. *)
Definition entry_at (fs : filesystem) (loc : list string) : option entry :=
  match loc with
  | [] => Some Dir
  | _ => fs !! loc
  end.

(** The limits of Linux on a name and on a path, in bytes. *)
Definition NAME_MAX : Z := 255.
Definition PATH_MAX : Z := 4096.

(** [len(os.fsencode(s))]: the file system encoding is UTF-8, in which a
    code point from 128 to 255 takes two bytes. *)
Fixpoint fs_bytes (s : string) : Z :=
  match s with
  | EmptyString => 0
  | String a r => (if (N_of_ascii a <? 128)%N then 1 else 2) + fs_bytes r
  end.

(** The bytes of an absolute path: a separator and the name, for every
    name. *)
Fixpoint path_bytes (comps : list string) : Z :=
  match comps with
  | [] => 0
  | c :: rest => 1 + fs_bytes c + path_bytes rest
  end.

(** Path resolution as the kernel does it: every name before the last must
    be a directory, ".." is the parent of the directory reached so far (and
    "/" is its own parent), and a name looked up in a directory is at most
    [NAME_MAX] bytes long.  Fails with ENOENT ([FileNotFoundError]),
    ENOTDIR ([NotADirectoryError]) or ENAMETOOLONG. *)
Fixpoint walk (fs : filesystem) (cur : list string) (comps : list string)
  : result (list string) :=
  match comps with
  | [] => Ok cur
  | c :: rest =>
      match entry_at fs cur with
      | Some Dir =>
          if String.eqb c ".." then walk fs (List.removelast cur) rest
          else if NAME_MAX <? fs_bytes c then Raise (OSError ENAMETOOLONG)
          else
            match entry_at fs (cur ++ [c]) with
            | Some _ => walk fs (cur ++ [c]) rest
            | None => Raise FileNotFoundError
            end
      | Some (File _) => Raise NotADirectoryError
      | None => Raise FileNotFoundError
      end
  end.

(** A NUL character in one of the names: Python refuses such a path with
    [ValueError] before the kernel sees it. *)
Fixpoint mentions_nul (s : string) : bool :=
  match s with
  | EmptyString => false
  | String a r => Ascii.eqb a zero || mentions_nul r
  end.

Definition embedded_null (comps : list string) : bool :=
  List.existsb mentions_nul comps.

(** What is refused before any name is looked up: a path with a NUL, by
    Python, and a path of [PATH_MAX] bytes or more, by the kernel. *)
Definition refused (comps : list string) : option exn :=
  if embedded_null comps then Some ValueError
  else if PATH_MAX <=? path_bytes comps then Some (OSError ENAMETOOLONG)
  else None.

(** The canonical location an absolute path denotes, if it resolves. *)
Definition resolve (fs : filesystem) (p : PurePath) : result (list string) :=
  match refused (parts p) with
  | Some e => Raise e
  | None => walk fs [] (parts p)
  end.

(** [os.stat(p)] *)
Definition stat (fs : filesystem) (p : PurePath) : result entry :=
  match resolve fs p with
  | Ok loc =>
      match entry_at fs loc with
      | Some e => Ok e
      | None => Raise FileNotFoundError
      end
  | Raise e => Raise e
  end.

(** ** The handler monad *)

(** What the handler has written to the socket, in order. *)
Inductive chunk : Type :=
| StatusLine (code : Z) (message : string)
| Header (keyword value : string)
| EndHeaders
| Body (data : string).

(** [files]: the file system.  [names]: the names that
    [tempfile._get_candidate_names()] yields next, cut at [TMP_MAX].
    [wfile]: the response written so far. *)
Record world : Type := World {
  files : filesystem;
  names : list string;
  wfile : list chunk
}.

Definition M (A : Type) : Type := world -> result A * world.

Definition ret {A} (a : A) : M A := fun w => (Ok a, w).

Definition bind {A B} (c : M A) (k : A -> M B) : M B :=
  fun w =>
    match c w with
    | (Ok a, w') => k a w'
    | (Raise e, w') => (Raise e, w')
    end.

Definition raise {A} (e : exn) : M A := fun w => (Raise e, w).

(** A pure library call that may raise. *)
Definition lift {A} (r : result A) : M A := fun w => (r, w).

(** [try: body finally: final]: [final] runs on both exits; an exception of
    [final] replaces the outcome of [body]. *)
Definition try_finally {A} (body : M A) (final : M unit) : M A :=
  fun w =>
    let '(r, w1) := body w in
    match final w1 with
    | (Ok _, w2) => (r, w2)
    | (Raise e, w2) => (Raise e, w2)
    end.

Declare Scope py_scope.
Delimit Scope py_scope with py.
Notation "x <- c ;; k" := (bind c (fun x => k))
  (at level 100, c at next level, right associativity) : py_scope.
Notation "c ;; k" := (bind c (fun _ => k))
  (at level 100, right associativity) : py_scope.
Local Open Scope py_scope.

Definition get_files : M filesystem := fun w => (Ok (files w), w).

Definition put_files (fs : filesystem) : M unit :=
  fun w => (Ok tt, World fs (names w) (wfile w)).

Definition emit (c : chunk) : M unit :=
  fun w => (Ok tt, World (files w) (names w) (wfile w ++ [c])).

(** *** File operations *)

(** The errors of [stat] that [exists], [is_file] and [is_dir] read as
    "no": the [OSError]s of [pathlib._ignore_error] (ENOENT and ENOTDIR;
    EBADF and ELOOP do not occur here) and the [ValueError] of a path that
    cannot be passed on. *)
Definition ignore_error (e : exn) : bool :=
  match e with
  | FileNotFoundError | NotADirectoryError | ValueError => true
  | _ => false
  end.

(** [p.exists()]: any other error of [stat] goes up. *)
Definition exists_ (p : PurePath) : M bool :=
  fs <- get_files ;;
  match stat fs p with
  | Ok _ => ret true
  | Raise e => if ignore_error e then ret false else raise e
  end.

(** [p.is_file()] *)
Definition is_file (p : PurePath) : M bool :=
  fs <- get_files ;;
  match stat fs p with
  | Ok (File _) => ret true
  | Ok Dir => ret false
  | Raise e => if ignore_error e then ret false else raise e
  end.

(** [with p.open("rb") as f: f.read()] *)
Definition read_bytes (p : PurePath) : M string :=
  fs <- get_files ;;
  match stat fs p with
  | Ok (File content) => ret content
  | Ok Dir => raise IsADirectoryError
  | Raise e => raise e
  end.

(** [os.open(file, O_RDWR | O_CREAT | O_EXCL)] for [file = dir / leaf]:
    creates the empty file and returns where it is. *)
Definition os_open_excl (dir : PurePath) (leaf : string) : M (list string) :=
  fs <- get_files ;;
  match refused (parts dir ++ [leaf]) with
  | Some e => raise e
  | None =>
    match resolve fs dir with
    | Raise e => raise e
    | Ok d =>
        match entry_at fs d with
        | Some Dir =>
            if NAME_MAX <? fs_bytes leaf then raise (OSError ENAMETOOLONG)
            else
              match entry_at fs (d ++ [leaf]) with
              | Some _ => raise FileExistsError
              | None => put_files (<[d ++ [leaf] := File ""]> fs) ;; ret (d ++ [leaf])
              end
        | Some (File _) => raise NotADirectoryError
        | None => raise FileNotFoundError
        end
    end
  end.

(** [next(names)] *)
Definition drop_name : M unit :=
  fun w => (Ok tt, World (files w) (List.tl (names w)) (wfile w)).

(** The loop of [tempfile._mkstemp_inner] over the candidate names: the
    first one that is free wins; [FileExistsError] when every attempt
    collides. *)
Fixpoint mkstemp_inner (dir : PurePath) (pre suf : string) (candidates : list string)
  : M (list string * PurePath) :=
  match candidates with
  | [] => raise FileExistsError
  | n :: rest =>
      fun w =>
        let leaf := pre +:+ n +:+ suf in
        match (drop_name ;; os_open_excl dir leaf) w with
        | (Ok fd, w') => (Ok (fd, dir // MkPath "" [leaf]), w')
        | (Raise FileExistsError, w') => mkstemp_inner dir pre suf rest w'
        | (Raise e, w') => (Raise e, w')
        end
  end.

(** [tempfile.mkstemp(suffix=suf, dir=dir)]: the descriptor (here the
    location of the file it is open on) and the path. *)
Definition mkstemp (suf : string) (dir : PurePath) : M (list string * PurePath) :=
  fun w => mkstemp_inner dir "tmp" suf (names w) w.

(** [with os.fdopen(fd, "wb") as dest: shutil.copyfileobj(src, dest)].
    [copyfileobj] starts with [src.read], which [None] does not have.
    [storage] is what the device does with the bytes: [None] when it takes
    them all, [Some (k, errno)] when it takes [k] of them and the write
    fails with that error.  Either way [dest] is closed and the file
    stays. *)
Definition copy_to_fd (storage : string -> option (nat * Z))
    (src : option string) (fd : list string) : M unit :=
  match src with
  | None => raise AttributeError
  | Some data =>
      fs <- get_files ;;
      match storage data with
      | None => put_files (<[fd := File data]> fs)
      | Some (k, errno) =>
          put_files (<[fd := File (String.substring 0 k data)]> fs) ;;
          raise (OSError errno)
      end
  end.

(** [p.unlink(missing_ok=True)]: only ENOENT is swallowed. *)
Definition unlink_missing_ok (p : PurePath) : M unit :=
  fs <- get_files ;;
  match resolve fs p with
  | Raise FileNotFoundError => ret tt
  | Raise e => raise e
  | Ok loc =>
      match entry_at fs loc with
      | Some (File _) => put_files (delete loc fs)
      | Some Dir => raise IsADirectoryError
      | None => ret tt
      end
  end.

(** ** cgi *)

Definition dquote : ascii := ascii_of_nat 34.
Definition backslash : ascii := ascii_of_nat 92.

Module Cgi.

(** [s.find(c, start)], with [pos] the index of the head of [s]. *)
Fixpoint find_from (c : ascii) (pos start : nat) (s : string) : option nat :=
  match s with
  | EmptyString => None
  | String a r =>
      if Nat.leb start pos && Ascii.eqb a c then Some pos
      else find_from c (S pos) start r
  end.

(** [s.count(c)] *)
Fixpoint count_char (c : ascii) (s : string) : nat :=
  match s with
  | EmptyString => O
  | String a r => ((if Ascii.eqb a c then 1 else 0) + count_char c r)%nat
  end.

(** [s.count(bq)] for the two-character string [bq] made of a backslash
    and a double quote. *)
Fixpoint count_escaped_quote (s : string) : nat :=
  match s with
  | EmptyString => O
  | String a r =>
      match r with
      | String b r' =>
          if Ascii.eqb a backslash && Ascii.eqb b dquote
          then S (count_escaped_quote r')
          else count_escaped_quote r
      | EmptyString => O
      end
  end.

(** [s[:n]] *)
Definition take (n : nat) (s : string) : string := String.substring 0 n s.

(** The inner loop of [_parseparam]: move [end] to the next ";" while the
    quotes before it are unbalanced.  [fuel] bounds the number of moves
    ([end] grows at each one). *)
Fixpoint param_end (fuel : nat) (s : string) (end_ : option nat) : nat :=
  match end_ with
  | None => String.length s
  | Some e =>
      if Nat.ltb 0 e
         && Nat.odd (count_char dquote (take e s) - count_escaped_quote (take e s))
      then
        match fuel with
        | S fuel' => param_end fuel' s (find_from ";" 0 (S e) s)
        | O => e
        end
      else e
  end.

(** [cgi.parse_header(line)[0]]: the first parameter, stripped.  The
    dictionary of options is not used by the server. *)
Definition parse_header (line : string) : string :=
  let end_ := param_end (String.length line) line (find_from ";" 0 0 line) in
  Py.strip (take end_ line).

(** One part of a parsed multipart body (an inner [FieldStorage]): a plain
    part, read into its [file], or a part that is itself multipart, which
    has a [list] of parts and no file. *)
#[warning="-register-all"]
Inductive part : Type :=
| Part (field_name : option string) (filename : option string) (data : string)
| Multi (field_name : option string) (filename : option string)
    (list_ : list part).

Definition field_name (f : part) : option string :=
  match f with Part n _ _ | Multi n _ _ => n end.

Definition filename (f : part) : option string :=
  match f with Part _ n _ | Multi _ n _ => n end.

(** [f.file]: the bytes a plain part was read into; [None] for a part that
    is itself multipart. *)
Definition file (f : part) : option string :=
  match f with
  | Part _ _ d => Some d
  | Multi _ _ _ => None
  end.

(** The bytes of the part's file, none when it has no file. *)
Definition data (f : part) : string := default "" (file f).

(** A Python value that is a str, a bytes, or a list of parts. *)
Inductive pyval : Type :=
| PyStr (s : string)
| PyBytes (b : string)
| PyList (l : list part).

(** [f.value]: for a plain part, bytes when it has a filename and text
    otherwise; for a part that is itself multipart, the list of its
    parts. *)
Definition value (f : part) : pyval :=
  match f with
  | Part _ (Some _) d => PyBytes d
  | Part _ None d => PyStr d
  | Multi _ _ l => PyList l
  end.

Definition named (key : string) (f : part) : bool :=
  match field_name f with
  | Some n => String.eqb n key
  | None => false
  end.

(** [key in form] *)
Definition contains (form : list part) (key : string) : bool :=
  List.existsb (named key) form.

(** What [form[key]] evaluates to: the part, or the list of the parts when
    several carry the name. *)
Inductive item : Type :=
| One (f : part)
| Many (l : list part).

(** [form[key]] *)
Definition getitem (form : list part) (key : string) : result item :=
  match List.filter (named key) form with
  | [] => Raise KeyError
  | [f] => Ok (One f)
  | found => Ok (Many found)
  end.

(** [form.getfirst(key)] *)
Definition getfirst (form : list part) (key : string) : option pyval :=
  match List.filter (named key) form with
  | [] => None
  | f :: _ => Some (value f)
  end.

End Cgi.

Import Cgi.

(** ** json.dumps of a dict *)

Module Json.

Definition hex_digit (n : N) : ascii :=
  if (n <? 10)%N then ascii_of_N (48 + n) else ascii_of_N (87 + n).

(** [py_encode_basestring_ascii] on one character. *)
Definition escape_char (c : ascii) : string :=
  let n := N_of_ascii c in
  if Ascii.eqb c dquote then String backslash (String dquote "")
  else if Ascii.eqb c backslash then String backslash (String backslash "")
  else if (n =? 10)%N then String backslash "n"
  else if (n =? 13)%N then String backslash "r"
  else if (n =? 9)%N then String backslash "t"
  else if (n =? 12)%N then String backslash "f"
  else if (n =? 8)%N then String backslash "b"
  else if ((32 <=? n) && (n <=? 126))%N then String c ""
  else String backslash
         ("u00" +:+ String (hex_digit (n / 16)) (String (hex_digit (n mod 16)) "")).

Fixpoint escape (s : string) : string :=
  match s with
  | EmptyString => EmptyString
  | String c r => escape_char c +:+ escape r
  end.

Definition quoted (s : string) : string :=
  String dquote (escape s) +:+ String dquote "".

Definition member (kv : string * string) : string :=
  quoted (fst kv) +:+ ": " +:+ quoted (snd kv).

(** The text of a dict of str values. *)
Definition object (d : list (string * string)) : string :=
  "{" +:+ Py.join ", " (List.map member d) +:+ "}".

(** The text of a value, if it has one: neither a bytes value nor a part
    of a form is serializable. *)
Definition value_text (v : pyval) : option string :=
  match v with
  | PyStr s => Some (quoted s)
  | PyBytes _ => None
  | PyList [] => Some "[]"
  | PyList (_ :: _) => None
  end.

Fixpoint members (d : list (string * pyval)) : option (list string) :=
  match d with
  | [] => Some []
  | (k, v) :: rest =>
      match value_text v, members rest with
      | Some t, Some l => Some ((quoted k +:+ ": " +:+ t) :: l)
      | _, _ => None
      end
  end.

(** [json.dumps(d)]; for a dict of str values it is [object]. *)
Definition dumps (d : list (string * pyval)) : result string :=
  match members d with
  | Some l => Ok ("{" +:+ Py.join ", " l +:+ "}")
  | None => Raise TypeError
  end.

End Json.

(** ** The collaborator *)

(** [d[key]] of a dict kept as the list of its items. *)
Definition dict_get {V} (d : list (string * V)) (key : string) : option V :=
  match List.find (fun kv => String.eqb (fst kv) key) d with
  | Some kv => Some (snd kv)
  | None => None
  end.

(** [prompt or "(default prompt)"] *)
Definition prompt_or_default (prompt : option pyval) : pyval :=
  match prompt with
  | None => PyStr "(default prompt)"
  | Some (PyStr "") => PyStr "(default prompt)"
  | Some (PyBytes "") => PyStr "(default prompt)"
  | Some (PyList []) => PyStr "(default prompt)"
  | Some v => v
  end.

Definition generate_video_using_veo (file_path : PurePath) (prompt : option pyval)
  : list (string * pyval) :=
  [ ("videoUrl", PyStr "https://example.com/generated-veo-ad.mp4");
    ("jobId", PyStr "demo-job-1234");
    ("status", PyStr "queued");
    ("usedPrompt", prompt_or_default prompt);
    ("sourceModel", PyStr (name file_path)) ].

(** ** http.server *)

Inductive HTTPStatus : Type :=
| OK
| NO_CONTENT
| BAD_REQUEST
| NOT_FOUND
| REQUEST_ENTITY_TOO_LARGE
| UNSUPPORTED_MEDIA_TYPE.

Definition status_value (s : HTTPStatus) : Z :=
  match s with
  | OK => 200
  | NO_CONTENT => 204
  | BAD_REQUEST => 400
  | NOT_FOUND => 404
  | REQUEST_ENTITY_TOO_LARGE => 413
  | UNSUPPORTED_MEDIA_TYPE => 415
  end.

Definition status_phrase (s : HTTPStatus) : string :=
  match s with
  | OK => "OK"
  | NO_CONTENT => "No Content"
  | BAD_REQUEST => "Bad Request"
  | NOT_FOUND => "Not Found"
  | REQUEST_ENTITY_TOO_LARGE => "Request Entity Too Large"
  | UNSUPPORTED_MEDIA_TYPE => "Unsupported Media Type"
  end.

(** The request as the handler sees it: [self.path], [self.headers] and
    the unread body [self.rfile].  [self.request_version] is HTTP/1.0 or
    HTTP/1.1 throughout. *)
Record request : Type := Request {
  path : string;
  headers : list (string * string);
  rfile : string
}.

(** [self.headers.get(name)]: header names compare without case, the first
    match wins. *)
Definition headers_get (h : list (string * string)) (name : string) : option string :=
  match List.find (fun kv => String.eqb (Py.lower (fst kv)) (Py.lower name)) h with
  | Some kv => Some (snd kv)
  | None => None
  end.

(** The upload limit of [do_POST], [100 * 1024 * 1024]. *)
Definition MAX_UPLOAD : Z := 100 * 1024 * 1024.

(** What the handler takes from its surroundings. *)
Record environment : Type := Environment {
  (** [Path(__file__).resolve().parent.parent], as the names below "/"
      ([resolve()] leaves no "." and no ".." among them). *)
  project_dir : list string;
  (** [self.version_string()] and [self.date_time_string()]. *)
  version_string : string;
  date_time_string : string;
  (** The error page of [send_error] for a status and a message
      ([error_message_format] filled in). *)
  error_page : HTTPStatus -> string -> string;
  (** [cgi.FieldStorage(fp=self.rfile, headers=self.headers, environ=...)]:
      the parts of the multipart body, or the exception the parser raises. *)
  FieldStorage : request -> result (list part);
  (** What the device does with the bytes written to the temporary file
      (see [copy_to_fd]). *)
  storage : string -> option (nat * Z)
}.

Section Server.

Variable env : environment.

Definition PUBLIC_DIR : PurePath := MkPath "/" (project_dir env) // Path "public".
Definition UPLOAD_DIR : PurePath := MkPath "/" (project_dir env) // Path "uploads".

Definition send_header (keyword value : string) : M unit :=
  emit (Header keyword value).

Definition end_headers : M unit := emit EndHeaders.

Definition wfile_write (data : string) : M unit := emit (Body data).

(** [self.send_response(code, message)] *)
Definition send_response (code : HTTPStatus) (message : option string) : M unit :=
  emit (StatusLine (status_value code)
          (match message with Some m => m | None => status_phrase code end)) ;;
  send_header "Server" (version_string env) ;;
  send_header "Date" (date_time_string env).

(** [self.send_error(code, message)], for the codes the server uses (all
    of them carry a body). *)
Definition send_error (code : HTTPStatus) (message : string) : M unit :=
  send_response code (Some message) ;;
  send_header "Connection" "close" ;;
  let body := error_page env code message in
  send_header "Content-Type" "text/html;charset=utf-8" ;;
  send_header "Content-Length" (Py.str_of_nat (String.length body)) ;;
  end_headers ;;
  wfile_write body.

(** *** VeoRequestHandler *)

Definition do_OPTIONS (req : request) : M unit :=
  send_response NO_CONTENT None ;;
  send_header "Access-Control-Allow-Origin" "*" ;;
  send_header "Access-Control-Allow-Methods" "POST, GET, OPTIONS" ;;
  send_header "Access-Control-Allow-Headers" "Content-Type" ;;
  end_headers.

Definition _send_common_headers : M unit :=
  send_header "Access-Control-Allow-Origin" "*" ;;
  send_header "Cache-Control" "no-cache".

Definition _translate_path (url_path : string) : PurePath :=
  let path := normpath (Py.lstrip_char "/" (Py.split1_head "?" url_path)) in
  Path path.

Definition _guess_type (p : PurePath) : string :=
  if String.eqb (suffix p) ".css" then "text/css"
  else if String.eqb (suffix p) ".js" then "application/javascript"
  else if String.eqb (suffix p) ".html" || String.eqb (suffix p) ".htm" then "text/html"
  else if String.eqb (suffix p) ".json" then "application/json"
  else if String.eqb (suffix p) ".png" then "image/png"
  else if String.eqb (suffix p) ".jpg" || String.eqb (suffix p) ".jpeg" then "image/jpeg"
  else if String.eqb (suffix p) ".svg" then "image/svg+xml"
  else "application/octet-stream".

(** The file [do_GET] serves for a request path (lines 60-64). *)
Definition get_target (url_path : string) : PurePath :=
  if String.eqb url_path "/" || String.eqb url_path ""
  then PUBLIC_DIR // Path "index.html"
  else PUBLIC_DIR // _translate_path url_path.

Definition do_GET (req : request) : M unit :=
  let target := get_target (path req) in
  present <- exists_ target ;;
  missing <- (if negb present then ret true
              else regular <- is_file target ;; ret (negb regular)) ;;
  if (missing : bool) then send_error NOT_FOUND "File not found"
  else
    send_response OK None ;;
    _send_common_headers ;;
    send_header "Content-Type" (_guess_type target) ;;
    end_headers ;;
    content <- read_bytes target ;;
    wfile_write content.

(** [int(self.headers.get("Content-Length", 0))] *)
Definition declared_length (req : request) : result Z :=
  match headers_get (headers req) "Content-Length" with
  | Some v => Py.int_of_str v
  | None => Ok 0
  end.

(** [cgi.parse_header(self.headers.get("Content-Type", ""))[0]] *)
Definition content_type (req : request) : string :=
  parse_header (default "" (headers_get (headers req) "Content-Type")).

(** [getattr(upload_field, "filename", "")]: a list of parts has no such
    attribute. *)
Definition getattr_filename (upload_field : item) : option string :=
  match upload_field with
  | One f => filename f
  | Many _ => Some ""
  end.

(** [upload_field.filename] and [upload_field.file], once the check on the
    field has passed. *)
Definition the_upload (upload_field : option item)
  : result (string * option string) :=
  match upload_field with
  | Some (One f) =>
      match filename f with
      | Some fname => Ok (fname, file f)
      | None => Raise TypeError
      end
  | _ => Raise AttributeError
  end.

(** [form.getfirst("prompt") if "prompt" in form else None] *)
Definition prompt_of (form : list part) : option pyval :=
  if contains form "prompt" then getfirst form "prompt" else None.

(** The collaborator as [do_POST] calls it: the handler looks the name
    [generate_video_using_veo] up when it runs, so a test can put another
    function there. *)
Definition collaborator : Type := PurePath -> option pyval -> M (list (string * pyval)).

(** [do_POST], lines 113-130: store the upload, call the collaborator,
    remove the temporary file, answer. *)
Definition store_and_dispatch (veo : collaborator)
    (upload_file : option string) (file_suffix : string)
    (prompt_field : option pyval)
  : M unit :=
  temp <- mkstemp file_suffix UPLOAD_DIR ;;
  let '(temp_fd, temp_path) := temp in
  copy_to_fd (storage env) upload_file temp_fd ;;
  response_payload <-
    try_finally (veo temp_path prompt_field) (unlink_missing_ok temp_path) ;;
  response_bytes <- lift (Json.dumps response_payload) ;;
  send_response OK None ;;
  _send_common_headers ;;
  send_header "Content-Type" "application/json" ;;
  send_header "Content-Length" (Py.str_of_nat (String.length response_bytes)) ;;
  end_headers ;;
  wfile_write response_bytes.

(** [do_POST], lines 101-111: the checks on the parsed form. *)
Definition handle_form (veo : collaborator) (form : list part) : M unit :=
  upload_field <-
    (if contains form "model"
     then it <- lift (getitem form "model") ;; ret (Some it)
     else ret None) ;;
  if match upload_field with
     | None => true
     | Some it => negb (Py.truthy (getattr_filename it))
     end
  then send_error BAD_REQUEST "Missing model file upload"
  else
    upload <- lift (the_upload upload_field) ;;
    let file_suffix := Py.lower (suffix (Path (fst upload))) in
    if negb (String.eqb file_suffix ".gltf" || String.eqb file_suffix ".glb")
    then send_error UNSUPPORTED_MEDIA_TYPE "Only GLTF/GLB files are supported"
    else
      let prompt_field := prompt_of form in
      store_and_dispatch veo (snd upload) file_suffix prompt_field.

(** [do_POST], lines 78-99: the checks on the request head, then the
    multipart parse. *)
Definition do_POST_with (veo : collaborator) (req : request) : M unit :=
  if negb (String.eqb (path req) "/api/generate")
  then send_error NOT_FOUND "Unknown endpoint"
  else
    if negb (String.eqb (content_type req) "multipart/form-data")
    then send_error BAD_REQUEST "Expected multipart/form-data"
    else
      length <- lift (declared_length req) ;;
      if (length >? MAX_UPLOAD)
      then send_error REQUEST_ENTITY_TOO_LARGE "File too large"
      else
        form <- lift (FieldStorage env req) ;;
        handle_form veo form.

(** The collaborator of the module. *)
Definition veo_stub : collaborator :=
  fun file_path prompt => ret (generate_video_using_veo file_path prompt).

Definition do_POST (req : request) : M unit := do_POST_with veo_stub req.

End Server.

(** ** Observing a run *)

(** A handler run on a fresh connection. *)
Definition serve (handler : M unit) (fs : filesystem) (candidates : list string)
  : result unit * world :=
  handler (World fs candidates []).

(** The status code of what was written, if a status line was. *)
Definition response_status (out : list chunk) : option Z :=
  match out with
  | StatusLine code _ :: _ => Some code
  | _ => None
  end.

(** The headers written before the blank line. *)
Fixpoint response_headers (out : list chunk) : list (string * string) :=
  match out with
  | [] => []
  | Header k v :: rest => (k, v) :: response_headers rest
  | EndHeaders :: _ => []
  | _ :: rest => response_headers rest
  end.

(** The body: everything written after the headers. *)
Fixpoint response_body (out : list chunk) : string :=
  match out with
  | [] => ""
  | Body d :: rest => d +:+ response_body rest
  | _ :: rest => response_body rest
  end.

(** A canonical location lies under another one. *)
Definition under (dir loc : list string) : bool :=
  bool_decide (dir `prefix_of` loc).

(** What validation asks of a request before the upload is stored: the
    parsed form holds one part named model, with the file name [fname]
    whose lowered suffix [sfx] is allowed. *)
Definition accepted (env : environment) (req : request)
    (form : list part) (f : part) (fname sfx : string) : Prop :=
  path req = "/api/generate"
  /\ content_type req = "multipart/form-data"
  /\ (exists n, declared_length req = Ok n /\ n <= MAX_UPLOAD)
  /\ FieldStorage env req = Ok form
  /\ getitem form "model" = Ok (One f)
  /\ filename f = Some fname
  /\ fname <> ""
  /\ sfx = Py.lower (suffix (Path fname))
  /\ (sfx = ".gltf" \/ sfx = ".glb").

(** The upload of the part reaches the temporary file: the part carries a
    file, and the device takes all of its bytes. *)
Definition stored (env : environment) (f : part) : Prop :=
  file f = Some (data f) /\ storage env (data f) = None.

(** The table of section 4.2 of the specification: extension to media
    type, with the fallback for everything else. *)
Definition spec_media_types : list (string * string) :=
  [ (".css", "text/css"); (".js", "application/javascript");
    (".html", "text/html"); (".htm", "text/html");
    (".json", "application/json"); (".png", "image/png");
    (".jpg", "image/jpeg"); (".jpeg", "image/jpeg");
    (".svg", "image/svg+xml") ].

Definition spec_media_type (extension : string) : string :=
  default "application/octet-stream" (dict_get spec_media_types extension).

(** ** A concrete deployment, for the examples *)

Module Demo.

(** The project is checked out in /app; /etc/passwd is outside of it. *)
Definition fs : filesystem :=
  list_to_map
    [ (["app"], Dir);
      (["app"; "public"], Dir);
      (["app"; "public"; "index.html"], File "<html></html>");
      (["app"; "uploads"], Dir);
      (["etc"], Dir);
      (["etc"; "passwd"], File "root:x:0:0:root:/root:/bin/sh") ].

Definition candidates : list string := ["k3x9_q0a"; "zz81mw4c"].

(** An environment whose multipart parser yields [parsed] and whose device
    takes every write. *)
Definition env (parsed : result (list part)) : environment :=
  Environment ["app"] "VeoUploadServer/0.1 Python/3.10.12"
    "Thu, 01 Jan 2026 00:00:00 GMT"
    (fun code message => "Error " +:+ message)
    (fun _ => parsed)
    (fun _ => None).

Definition multipart : string * string :=
  ("Content-Type", "multipart/form-data; boundary=----x").

Definition post (hs : list (string * string)) : request :=
  Request "/api/generate" hs "".

Definition car_form : list part :=
  [ Part (Some "model") (Some "car.glb") "glTF";
    Part (Some "prompt") None "ad for a car" ].

Definition blank_prompt_form : list part :=
  [ Part (Some "model") (Some "scene.GLTF") "{}";
    Part (Some "prompt") None "" ].


Definition text_form : list part :=
  [ Part (Some "model") (Some "notes.txt") "hello" ].

(** A multipart upload that declares 4096 bytes. *)
Definition upload : request :=
  post [multipart; ("Content-Length", "4096")].

(** A multipart upload that declares one byte more than the limit. *)
Definition oversized : request :=
  post [multipart; ("Content-Length", "104857601")].

(** The same declared length on a body that is not multipart. *)
Definition oversized_raw : request :=
  post [("Content-Type", "application/octet-stream");
        ("Content-Length", "104857601")].

(** No Content-Length header, and a body that is not multipart. *)
Definition unsized_text : request :=
  post [("Content-Type", "text/plain")].

(** No Content-Length header, multipart. *)
Definition unsized : request := post [multipart].


(** A request path that climbs out of /app/public. *)
Definition traversal : request := Request "/../../etc/passwd" [] "".

(** Where [mkstemp] puts the upload of a .glb file, and the world after
    it. *)
Definition temp_fd : list string := ["app"; "uploads"; "tmpk3x9_q0a.glb"].
Definition temp_path : PurePath := MkPath "/" temp_fd.
Definition after_mkstemp : world :=
  World (<[temp_fd := File ""]> fs) ["zz81mw4c"] [].

(** The same for a .gltf file. *)
Definition gltf_fd : list string := ["app"; "uploads"; "tmpk3x9_q0a.gltf"].
Definition gltf_path : PurePath := MkPath "/" gltf_fd.
Definition gltf_after_mkstemp : world :=
  World (<[gltf_fd := File ""]> fs) ["zz81mw4c"] [].

(** A collaborator that fails. *)
Definition failing_veo : collaborator :=
  fun _ _ => raise (Exception "Veo is unreachable").

(** A multipart parser that must not be reached. *)
Definition parser_reached : result (list part) :=
  Raise (Exception "multipart parser reached").

End Demo.

(** ** Start-up, and further observations *)

(** [os.mkdir(p)]: the parent must resolve to a directory and the last name
    must be free there. *)
Definition os_mkdir (p : PurePath) : M unit :=
  fs <- get_files ;;
  match refused (parts p) with
  | Some e => raise e
  | None =>
    match parts p with
    | [] => raise FileExistsError
    | _ =>
        let leaf := List.last (parts p) "" in
        match walk fs [] (List.removelast (parts p)) with
        | Raise e => raise e
        | Ok d =>
            match entry_at fs d with
            | Some Dir =>
                if String.eqb leaf ".." then raise FileExistsError
                else if NAME_MAX <? fs_bytes leaf
                then raise (OSError ENAMETOOLONG)
                else
                  match entry_at fs (d ++ [leaf]) with
                  | Some _ => raise FileExistsError
                  | None => put_files (<[d ++ [leaf] := Dir]> fs)
                  end
            | Some (File _) => raise NotADirectoryError
            | None => raise FileNotFoundError
            end
        end
    end
  end.

(** [p.is_dir()] *)
Definition is_dir (p : PurePath) : M bool :=
  fs <- get_files ;;
  match stat fs p with
  | Ok Dir => ret true
  | Ok (File _) => ret false
  | Raise e => if ignore_error e then ret false else raise e
  end.

(** The exceptions that are [OSError]s. *)
Definition is_OSError (e : exn) : bool :=
  match e with
  | FileExistsError | FileNotFoundError | IsADirectoryError
  | NotADirectoryError | OSError _ => true
  | _ => false
  end.

(** [p.mkdir(exist_ok=True)]: [FileNotFoundError] goes up; any other
    [OSError] is swallowed when the path is a directory. *)
Definition mkdir_exist_ok (p : PurePath) : M unit :=
  fun w =>
    match os_mkdir p w with
    | (Ok _, w') => (Ok tt, w')
    | (Raise FileNotFoundError, w') => (Raise FileNotFoundError, w')
    | (Raise e, w') =>
        if is_OSError e then
          match is_dir p w' with
          | (Ok true, w'') => (Ok tt, w'')
          | (Ok false, w'') => (Raise e, w'')
          | (Raise e', w'') => (Raise e', w'')
          end
        else (Raise e, w')
    end.

(** Line 23 of the module, run when it is imported:
    [UPLOAD_DIR.mkdir(exist_ok=True)]. *)
Definition module_init (env : environment) : M unit :=
  mkdir_exist_ok (UPLOAD_DIR env).

(** The body of the loop of [normpath], as a function of the components
    kept so far. *)
Definition norm_step (initial_slashes : nat) (new_comps : list string)
    (comp : string) : list string :=
  if String.eqb comp "" || String.eqb comp "." then new_comps
  else if negb (String.eqb comp "..")
          || (Nat.eqb initial_slashes 0 && Nat.eqb (List.length new_comps) 0)
          || (negb (Nat.eqb (List.length new_comps) 0)
              && String.eqb (List.last new_comps "") "..")
  then new_comps ++ [comp]
  else if negb (Nat.eqb (List.length new_comps) 0)
  then List.removelast new_comps
  else new_comps.

(** A name as a path keeps it: not empty, not ".", without a separator. *)
Definition plain_name (x : string) : Prop :=
  x <> "" /\ x <> "." /\ count_char "/" x = 0%nat.

(** Headers, the blank line, and at most one body after it. *)
Fixpoint headers_then_end (out : list chunk) : bool :=
  match out with
  | Header _ _ :: rest => headers_then_end rest
  | [EndHeaders] => true
  | [EndHeaders; Body _] => true
  | _ => false
  end.

(** What was written is one whole response. *)
Definition complete_response (out : list chunk) : bool :=
  match out with
  | StatusLine _ _ :: rest => headers_then_end rest
  | _ => false
  end.

(** The status codes [do_POST] can answer with. *)
Definition post_statuses : list Z := [200; 400; 404; 413; 415].

(** How a run of [do_POST] on a fresh connection may end, seen from a file
    system [fs]: the files are those of [fs], and either an exception went
    up with nothing written, or one whole response was written whose
    status is one of [post_statuses]. *)
Definition settled (fs : filesystem) (run : result unit * world) : Prop :=
  files (snd run) = fs
  /\ ((exists e, fst run = Raise e /\ wfile (snd run) = [])
      \/ (fst run = Ok tt
          /\ complete_response (wfile (snd run)) = true
          /\ exists code,
               response_status (wfile (snd run)) = Some code
               /\ In code post_statuses)).

(** How the copy into the temporary file fails, when it does: the
    exception that goes up, and what the file holds then. *)
Definition copy_failure (storage : string -> option (nat * Z))
    (src : option string) : option (exn * string) :=
  match src with
  | None => Some (AttributeError, "")
  | Some data =>
      match storage data with
      | None => None
      | Some (k, errno) => Some (OSError errno, String.substring 0 k data)
      end
  end.

(** The other way a run of [do_POST] on a fresh connection may end, seen
    from a file system [fs]: an exception went up with nothing written, and
    the files are those of [fs] and one more regular file. *)
Definition leftover (fs : filesystem) (run : result unit * world) : Prop :=
  exists e fd content,
    fst run = Raise e
    /\ wfile (snd run) = []
    /\ fs !! fd = None
    /\ files (snd run) = <[fd := File content]> fs.

(** Some ".." first, then names none of which is "..". *)
Definition dotdot_run (l : list string) : Prop :=
  exists k names,
    l = List.repeat ".." k ++ names
    /\ Forall (fun x => String.eqb x ".." = false) names.

(** A collaborator that opens the file it is given and reports what it
    read. *)
Definition reading_veo : collaborator :=
  fun file_path _ =>
    content <- read_bytes file_path ;;
    ret [("read", PyStr content)].

(** ** More of the concrete deployment *)

Module Cases.

(** A deployment without the uploads directory. *)
Definition fresh_fs : filesystem :=
  list_to_map
    [ (["app"], Dir);
      (["app"; "public"], Dir);
      (["app"; "public"; "index.html"], File "<html></html>") ].

(** A deployment where a regular file sits where the uploads directory
    should be. *)
Definition blocked_fs : filesystem :=
  <[ ["app"; "uploads"] := File "not a directory" ]> fresh_fs.

(** The front page with a query string. *)
Definition index_query : request := Request "/?lang=en" [] "".

(** A style sheet below the public root, asked for through a detour. *)
Definition styled_fs : filesystem :=
  <[ ["app"; "public"; "css"] := Dir ]>
    (<[ ["app"; "public"; "css"; "site.css"] := File "body{}" ]> Demo.fs).
Definition detour : request := Request "/css/../css/./site.css?v=3" [] "".

(** The endpoint with a query string, and a GET-only path. *)
Definition post_with_query : request :=
  Request "/api/generate?dry=1" [Demo.multipart] "".

(** A Content-Type that differs from the expected one by case only. *)
Definition capitalised : request :=
  Demo.post [("Content-Type", "Multipart/Form-Data; boundary=x")].

(** A Content-Length that [int] does not read. *)
Definition bad_length : request :=
  Demo.post [Demo.multipart; ("Content-Length", "12 bytes")].

(** Two parts named model; a model part that is a plain text field. *)
Definition twin_form : list part :=
  [ Part (Some "model") (Some "a.glb") "A";
    Part (Some "model") (Some "b.glb") "B" ].
Definition text_model_form : list part :=
  [ Part (Some "model") None "car.glb" ].

(** A prompt part that carries a file name: its value is bytes. *)
Definition file_prompt_form : list part :=
  [ Part (Some "model") (Some "car.glb") "glTF";
    Part (Some "prompt") (Some "prompt.txt") "ad for a car" ].

(** A Content-Length padded with the separator 0x1d, which [str.strip]
    removes and [int] does not accept. *)
Definition padded_length : request :=
  Demo.post [Demo.multipart;
             ("Content-Length", String (ascii_of_nat 29) "104857601")].

(** A model part that is itself multipart: it has the file name car.glb
    and no file. *)
Definition nested_form : list part :=
  [ Multi (Some "model") (Some "car.glb") [Part None None "glTF"];
    Part (Some "prompt") None "ad for a car" ].

(** An environment whose device is full after [k] bytes. *)
Definition full_disk (k : nat) (parsed : result (list part)) : environment :=
  Environment ["app"] "VeoUploadServer/0.1 Python/3.10.12"
    "Thu, 01 Jan 2026 00:00:00 GMT"
    (fun code message => "Error " +:+ message)
    (fun _ => parsed)
    (fun _ => Some (k, ENOSPC)).

(** A name of 300 characters in the public root, and a path of 2100 short
    names. *)
Definition long_name : request :=
  Request ("/" +:+ Py.repeat_str "a" 300) [] "".
Definition long_path : request :=
  Request (Py.repeat_str "/a" 2100) [] "".

(** Candidate names of which the first is taken. *)
Definition taken_fs : filesystem :=
  <[ ["app"; "uploads"; "tmpk3x9_q0a.glb"] := File "someone else's" ]> Demo.fs.

End Cases.

(** * Properties *)

(** ** The library model on sample inputs *)

Example split_keeps_empty_fields : Py.split "/" "a//b" = ["a"; ""; "b"].
Proof. reflexivity. Qed.

Example int_accepts_sign_space_underscore :
  Py.int_of_str " +1_04857601 " = Ok 104857601.
Proof. reflexivity. Qed.

Example int_rejects_trailing_text : Py.int_of_str "12a" = Raise ValueError.
Proof. reflexivity. Qed.

Example normpath_collapses_inner_dotdot : normpath "a/./b/../c//d" = "a/c/d".
Proof. reflexivity. Qed.

Example normpath_keeps_leading_dotdot :
  normpath "../../etc/passwd" = "../../etc/passwd".
Proof. reflexivity. Qed.

Example normpath_rooted_dotdot : normpath "/../x" = "/x".
Proof. reflexivity. Qed.

Example suffix_is_last_extension : suffix (Path "dir/Model.tar.GLB") = ".GLB".
Proof. reflexivity. Qed.

Example suffix_of_dotfile_is_empty :
  suffix (Path ".glb") = "" /\ suffix (Path "model.") = "".
Proof. split; reflexivity. Qed.

Example parse_header_drops_parameters :
  parse_header "multipart/form-data; boundary=----x" = "multipart/form-data".
Proof. reflexivity. Qed.

Example translate_path_strips_query :
  _translate_path "/css/site.css?v=3" = MkPath "" ["css"; "site.css"].
Proof. reflexivity. Qed.

Section FileSystem.

Lemma entry_at_insert_ne (fs : filesystem) (k loc : list string) (e : entry) :
  loc <> k -> entry_at (<[k := e]> fs) loc = entry_at fs loc.
Proof.
  intros Hne. destruct loc as [|a loc]; [reflexivity |].
  cbn. now rewrite lookup_insert_ne.
Qed.

Lemma entry_at_insert_eq (fs : filesystem) (k : list string) (e : entry) :
  k <> [] -> entry_at (<[k := e]> fs) k = Some e.
Proof.
  intros Hne. destruct k as [|a k]; [congruence |].
  cbn. now rewrite lookup_insert_eq.
Qed.

Lemma entry_at_lookup (fs : filesystem) (k : list string) :
  entry_at fs k = None -> fs !! k = None /\ k <> [].
Proof. destruct k; cbn; [discriminate | intros ->; split; congruence]. Qed.

(** Creating a file where there was nothing does not disturb a resolution
    that succeeded. *)
Lemma walk_insert_fresh (fs : filesystem) (k : list string) (e : entry)
    (comps cur loc : list string) :
  entry_at fs k = None ->
  walk fs cur comps = Ok loc ->
  walk (<[k := e]> fs) cur comps = Ok loc.
Proof.
  intros Hk. revert cur.
  induction comps as [|c rest IH]; intros cur; cbn [walk]; [auto |].
  destruct (entry_at fs cur) as [[?|]|] eqn:Hcur; try discriminate.
  rewrite entry_at_insert_ne by congruence. rewrite Hcur.
  destruct (String.eqb c ".."); [apply IH |].
  destruct (NAME_MAX <? fs_bytes c); [discriminate |].
  destruct (entry_at fs (cur ++ [c])) eqn:Hnext; try discriminate.
  rewrite entry_at_insert_ne by congruence. rewrite Hnext. apply IH.
Qed.

(** A resolution that succeeds in a part of the file system succeeds, to
    the same place, in the whole. *)
Lemma walk_weaken (fs fs' : filesystem) (comps cur loc : list string) :
  fs' ⊆ fs ->
  walk fs' cur comps = Ok loc ->
  walk fs cur comps = Ok loc.
Proof.
  intros Hsub.
  assert (Hent : forall l x, entry_at fs' l = Some x -> entry_at fs l = Some x).
  { intros [|a l] x; cbn; [auto |]. intros H. eapply lookup_weaken; eauto. }
  revert cur. induction comps as [|c rest IH]; intros cur; cbn [walk]; [auto |].
  destruct (entry_at fs' cur) as [[?|]|] eqn:Hcur; try discriminate.
  rewrite (Hent _ _ Hcur).
  destruct (String.eqb c ".."); [apply IH |].
  destruct (NAME_MAX <? fs_bytes c); [discriminate |].
  destruct (entry_at fs' (cur ++ [c])) eqn:Hnext; try discriminate.
  rewrite (Hent _ _ Hnext). apply IH.
Qed.

Lemma walk_app (fs : filesystem) (c1 c2 cur : list string) :
  walk fs cur (c1 ++ c2) =
  match walk fs cur c1 with
  | Ok l => walk fs l c2
  | Raise e => Raise e
  end.
Proof.
  revert cur. induction c1 as [|c rest IH]; intros cur; cbn [walk app];
    [reflexivity |].
  destruct (entry_at fs cur) as [[?|]|]; try reflexivity.
  destruct (String.eqb c ".."); [apply IH |].
  destruct (NAME_MAX <? fs_bytes c); [reflexivity |].
  destruct (entry_at fs (cur ++ [c])); [apply IH | reflexivity].
Qed.

(** A path without ".." only descends: where it resolves lies under where
    the resolution started.  This is what normalising the request path
    would have to establish; [normpath] leaves the leading ".." of a
    relative path in place. *)
Lemma walk_descends (fs : filesystem) (comps cur loc : list string) :
  Forall (fun c => String.eqb c ".." = false) comps ->
  walk fs cur comps = Ok loc ->
  cur `prefix_of` loc.
Proof.
  intros Hall. revert cur.
  induction Hall as [|c rest Hc _ IH]; intros cur; cbn [walk].
  - intros H. injection H as <-. reflexivity.
  - destruct (entry_at fs cur) as [[?|]|]; try discriminate.
    rewrite Hc. destruct (NAME_MAX <? fs_bytes c); [discriminate |].
    destruct (entry_at fs (cur ++ [c])); [| discriminate].
    intros H. apply IH in H. etrans; [apply prefix_app_r; reflexivity | exact H].
Qed.

(** The errors of a walk. *)
Lemma walk_errors (fs : filesystem) (comps cur : list string) (e : exn) :
  walk fs cur comps = Raise e ->
  e = FileNotFoundError \/ e = NotADirectoryError \/ e = OSError ENAMETOOLONG.
Proof.
  revert cur. induction comps as [|c rest IH]; intros cur; cbn [walk];
    [discriminate |].
  destruct (entry_at fs cur) as [[?|]|]; try (intros [= <-]; auto).
  destruct (String.eqb c ".."); [apply IH |].
  destruct (NAME_MAX <? fs_bytes c); [intros [= <-]; auto |].
  destruct (entry_at fs (cur ++ [c])); [apply IH | intros [= <-]; auto].
Qed.

Lemma fs_bytes_nonneg (s : string) : 0 <= fs_bytes s.
Proof.
  induction s as [|a s IH]; cbn [fs_bytes]; [lia |].
  destruct (N_of_ascii a <? 128)%N; lia.
Qed.

Lemma path_bytes_nonneg (comps : list string) : 0 <= path_bytes comps.
Proof.
  induction comps as [|c rest IH]; cbn [path_bytes]; [lia |].
  pose proof (fs_bytes_nonneg c). lia.
Qed.

Lemma path_bytes_app (c1 c2 : list string) :
  path_bytes (c1 ++ c2) = path_bytes c1 + path_bytes c2.
Proof.
  induction c1 as [|c rest IH]; cbn [path_bytes app]; [reflexivity |].
  rewrite IH. lia.
Qed.

Lemma embedded_null_app (c1 c2 : list string) :
  embedded_null (c1 ++ c2) = embedded_null c1 || embedded_null c2.
Proof. unfold embedded_null. apply List.existsb_app. Qed.

(** A path that is not refused has no refused beginning. *)
Lemma refused_app (c1 c2 : list string) :
  refused (c1 ++ c2) = None -> refused c1 = None.
Proof.
  unfold refused. rewrite embedded_null_app, path_bytes_app.
  destruct (embedded_null c1); [discriminate |]. cbn [orb].
  destruct (embedded_null c2); [discriminate |].
  pose proof (path_bytes_nonneg c2).
  destruct (Z.leb_spec PATH_MAX (path_bytes c1 + path_bytes c2)); [discriminate |].
  destruct (Z.leb_spec PATH_MAX (path_bytes c1)); [lia | reflexivity].
Qed.

(** What a resolution that succeeds went through. *)
Lemma resolve_ok (fs : filesystem) (p : PurePath) (loc : list string) :
  resolve fs p = Ok loc <->
  refused (parts p) = None /\ walk fs [] (parts p) = Ok loc.
Proof.
  unfold resolve. destruct (refused (parts p)).
  - split; [discriminate | intros [? _]; discriminate].
  - split; [auto | intros [_ ?]; assumption].
Qed.

Lemma resolve_insert_fresh (fs : filesystem) (k : list string) (e : entry)
    (p : PurePath) (loc : list string) :
  entry_at fs k = None ->
  resolve fs p = Ok loc ->
  resolve (<[k := e]> fs) p = Ok loc.
Proof.
  intros Hk H. apply resolve_ok in H as (Hok & Hwalk).
  apply resolve_ok. eauto using walk_insert_fresh.
Qed.

Lemma resolve_weaken (fs fs' : filesystem) (p : PurePath) (loc : list string) :
  fs' ⊆ fs ->
  resolve fs' p = Ok loc ->
  resolve fs p = Ok loc.
Proof.
  intros Hsub H. apply resolve_ok in H as (Hok & Hwalk).
  apply resolve_ok. eauto using walk_weaken.
Qed.

(** The errors of [stat]. *)
Lemma stat_errors (fs : filesystem) (p : PurePath) (e : exn) :
  stat fs p = Raise e ->
  e = FileNotFoundError \/ e = NotADirectoryError \/ e = ValueError
  \/ e = OSError ENAMETOOLONG.
Proof.
  unfold stat, resolve, refused.
  destruct (embedded_null (parts p)); [intros [= <-]; auto |].
  destruct (PATH_MAX <=? path_bytes (parts p)); [intros [= <-]; auto |].
  destruct (walk fs [] (parts p)) as [loc|e'] eqn:Hwalk.
  - destruct (entry_at fs loc); [discriminate | intros [= <-]; auto].
  - intros [= <-]. apply walk_errors in Hwalk. intuition.
Qed.

(** After [unlink(missing_ok=True)] the path does not name a regular file,
    whether the call returned or raised. *)
Lemma unlink_no_file (p : PurePath) (w : world) (content : string) :
  stat (files (snd (unlink_missing_ok p w))) p <> Ok (File content).
Proof.
  unfold unlink_missing_ok, bind, get_files, put_files, ret, raise, stat.
  destruct (resolve (files w) p) as [loc|e] eqn:Hres.
  - destruct (entry_at (files w) loc) as [[c|]|] eqn:Hloc; cbn.
    + destruct (resolve (delete loc (files w)) p) as [loc'|e'] eqn:Hres'; [| discriminate].
      apply resolve_weaken with (fs := files w) in Hres'; [| apply delete_subseteq].
      rewrite Hres in Hres'. injection Hres' as <-.
      destruct loc as [|a loc]; [discriminate |].
      cbn. rewrite lookup_delete_eq. discriminate.
    + rewrite Hres, Hloc. discriminate.
    + rewrite Hres, Hloc. discriminate.
  - destruct e; cbn; rewrite Hres; discriminate.
Qed.

End FileSystem.

Section Mkstemp.

(** What a successful [mkstemp] did: it took one of the candidate names,
    the file did not exist, and now exists, empty, in the directory. *)
Lemma mkstemp_inner_ok (dir : PurePath) (pre suf : string) (cands : list string)
    (w w1 : world) (fd : list string) (tp : PurePath) :
  mkstemp_inner dir pre suf cands w = (Ok (fd, tp), w1) ->
  exists n d,
    In n cands
    /\ resolve (files w) dir = Ok d
    /\ entry_at (files w) d = Some Dir
    /\ fd = d ++ [pre +:+ n +:+ suf]
    /\ tp = dir // MkPath "" [pre +:+ n +:+ suf]
    /\ entry_at (files w) fd = None
    /\ files w1 = <[fd := File ""]> (files w)
    /\ wfile w1 = wfile w
    /\ refused (parts dir ++ [pre +:+ n +:+ suf]) = None
    /\ fs_bytes (pre +:+ n +:+ suf) <= NAME_MAX.
Proof.
  revert w. induction cands as [|n rest IH]; intros w; cbn [mkstemp_inner];
    [discriminate |].
  unfold bind, drop_name, os_open_excl, get_files, put_files, ret, raise.
  cbn -[Z.ltb refused fs_bytes].
  destruct (refused (parts dir ++ [pre +:+ n +:+ suf])) as [e0|] eqn:Href.
  { cbn -[Z.ltb refused fs_bytes]. unfold refused in Href.
    destruct (embedded_null _); [injection Href as <-; discriminate |].
    destruct (PATH_MAX <=? _); [injection Href as <-; discriminate | discriminate]. }
  destruct (resolve (files w) dir) as [d|e] eqn:Hres.
  - destruct (entry_at (files w) d) as [[c|]|] eqn:Hd;
      cbn -[Z.ltb refused fs_bytes]; try discriminate.
    destruct (Z.ltb_spec NAME_MAX (fs_bytes (pre +:+ n +:+ suf)))
      as [Hname|Hname]; [discriminate |].
    destruct (entry_at (files w) (d ++ [pre +:+ n +:+ suf])) eqn:Hleaf;
      cbn -[Z.ltb refused fs_bytes].
    + intros H. apply IH in H. cbn [files] in H.
      destruct H as (n' & d' & Hin & H). exists n', d'.
      rewrite Hres in H. split; [now right | exact H].
    + intros H. injection H as <- <- <-. exists n, d. cbn [files wfile In].
      repeat split; auto.
  - cbn -[Z.ltb refused fs_bytes]. destruct e; try discriminate.
    intros H. apply IH in H. cbn [files] in H. rewrite Hres in H.
    destruct H as (n' & d' & _ & H & _). discriminate.
Qed.

(** A failed [mkstemp] leaves the file system and the response as they
    were. *)
Lemma mkstemp_inner_raise (dir : PurePath) (pre suf : string) (cands : list string)
    (w w1 : world) (e : exn) :
  mkstemp_inner dir pre suf cands w = (Raise e, w1) ->
  files w1 = files w /\ wfile w1 = wfile w.
Proof.
  revert w. induction cands as [|n rest IH]; intros w; cbn [mkstemp_inner].
  - unfold raise. intros H. injection H as <- <-. auto.
  - unfold bind, drop_name, os_open_excl, get_files, put_files, ret, raise.
    cbn -[Z.ltb refused fs_bytes].
    destruct (refused (parts dir ++ [pre +:+ n +:+ suf])) as [e0|] eqn:Href.
    { cbn -[Z.ltb refused fs_bytes]. unfold refused in Href.
      destruct (embedded_null _); [injection Href as <- |];
        [intros H; injection H as <- <-; auto |].
      destruct (PATH_MAX <=? _); [injection Href as <- | discriminate].
      intros H; injection H as <- <-; auto. }
    destruct (resolve (files w) dir) as [d|e0] eqn:Hres.
    + destruct (entry_at (files w) d) as [[c|]|] eqn:Hd;
        cbn -[Z.ltb refused fs_bytes].
      * intros H. injection H as <- <-. auto.
      * destruct (NAME_MAX <? fs_bytes (pre +:+ n +:+ suf));
          [intros H; injection H as <- <-; auto |].
        destruct (entry_at (files w) (d ++ [pre +:+ n +:+ suf])) eqn:Hleaf;
          cbn -[Z.ltb refused fs_bytes].
        -- intros H. apply IH in H. exact H.
        -- discriminate.
      * intros H. injection H as <- <-. auto.
    + cbn -[Z.ltb refused fs_bytes].
      destruct e0; try (intros H; injection H as <- <-; auto).
      intros H. apply IH in H. exact H.
Qed.

End Mkstemp.

Section Properties.

Variable env : environment.

Lemma append_empty_r (s : string) : s +:+ "" = s.
Proof.
  induction s as [|a s IH]; [reflexivity |].
  change (String a (s +:+ "") = String a s). f_equal. exact IH.
Qed.

Lemma guess_type_table (p : PurePath) :
  _guess_type p = spec_media_type (suffix p).
Proof.
  unfold _guess_type, spec_media_type, spec_media_types, dict_get.
  generalize (suffix p) as s. intros s. cbn [List.find fst snd].
  rewrite !(String.eqb_sym _ s).
  repeat (destruct (String.eqb s _); cbn [orb default]; try reflexivity).
Qed.

(** Unfolding the handler monad and the response writer. *)
Ltac run_handler :=
  unfold serve, send_error, send_response, _send_common_headers, send_header,
    end_headers, wfile_write, emit, exists_, is_file, read_bytes, get_files,
    put_files, lift, raise, bind, ret.

(** C7: every OPTIONS request, whatever its path, is answered 204 with the
    three CORS headers and nothing after the headers. *)
Theorem C7_options_preflight (req : request) (fs : filesystem) (cands : list string) :
  fst (serve (do_OPTIONS env req) fs cands) = Ok tt
  /\ response_status (wfile (snd (serve (do_OPTIONS env req) fs cands))) = Some 204
  /\ In ("Access-Control-Allow-Origin", "*")
        (response_headers (wfile (snd (serve (do_OPTIONS env req) fs cands))))
  /\ In ("Access-Control-Allow-Methods", "POST, GET, OPTIONS")
        (response_headers (wfile (snd (serve (do_OPTIONS env req) fs cands))))
  /\ In ("Access-Control-Allow-Headers", "Content-Type")
        (response_headers (wfile (snd (serve (do_OPTIONS env req) fs cands))))
  /\ response_body (wfile (snd (serve (do_OPTIONS env req) fs cands))) = ""
  /\ List.last (wfile (snd (serve (do_OPTIONS env req) fs cands))) EndHeaders
     = EndHeaders.
Proof.
  unfold do_OPTIONS. run_handler. cbn.
  repeat split; auto 10.
Qed.

(** The suffix of a name is what follows its last dot, with the dot, when
    something stands before and after that dot. *)
Lemma rfind_dot_none (s : string) :
  count_char "." s = 0%nat -> Py.rfind_dot s = None.
Proof.
  induction s as [|a s IH]; cbn [count_char Py.rfind_dot]; [reflexivity |].
  destruct (Ascii.eqb a "."); [discriminate |].
  intros H. now rewrite IH.
Qed.

Lemma rfind_dot_last (stem ext : string) :
  count_char "." ext = 0%nat ->
  Py.rfind_dot (stem +:+ String "." ext) = Some (String.length stem).
Proof.
  intros Hext. induction stem as [|a stem IH].
  - change ("" +:+ String "." ext) with (String "." ext).
    cbn [Py.rfind_dot]. now rewrite (rfind_dot_none _ Hext).
  - change (String a stem +:+ String "." ext)
      with (String a (stem +:+ String "." ext)).
    cbn [Py.rfind_dot String.length]. now rewrite IH.
Qed.

Lemma drop_length_app (stem rest : string) :
  Py.drop (String.length stem) (stem +:+ rest) = rest.
Proof.
  induction stem as [|a stem IH]; [reflexivity |].
  change (String a stem +:+ rest) with (String a (stem +:+ rest)).
  cbn [String.length Py.drop]. exact IH.
Qed.

Lemma string_length_app (a b : string) :
  String.length (a +:+ b) = (String.length a + String.length b)%nat.
Proof.
  induction a as [|c a IH]; [reflexivity |].
  change (String c a +:+ b) with (String c (a +:+ b)).
  cbn [String.length]. now rewrite IH.
Qed.

Lemma suffix_of_name (p : PurePath) (stem ext : string) :
  name p = stem +:+ String "." ext ->
  stem <> "" -> ext <> "" -> count_char "." ext = 0%nat ->
  suffix p = String "." ext.
Proof.
  intros Hname Hstem Hext Hdot. unfold suffix. rewrite Hname.
  rewrite (rfind_dot_last _ _ Hdot), drop_length_app, string_length_app.
  destruct stem as [|a stem]; [congruence |].
  destruct ext as [|b ext]; [congruence |].
  cbn [String.length].
  replace (Nat.ltb 0 (S (String.length stem))) with true by reflexivity.
  replace (Nat.ltb (S (String.length stem))
             (S (String.length stem) + S (S (String.length ext)) - 1)) with true
    by (symmetry; apply Nat.ltb_lt; lia).
  reflexivity.
Qed.

Lemma suffix_without_dot (p : PurePath) :
  count_char "." (name p) = 0%nat -> suffix p = "".
Proof. intros H. unfold suffix. now rewrite (rfind_dot_none _ H). Qed.

(** C8: a GET request whose target is an existing regular file is answered
    with exactly this: the status line 200, the headers of [send_response],
    the CORS origin, Cache-Control: no-cache, the Content-Type the table of
    the specification gives for the file's extension, the blank line, and
    the file's bytes as the body.  The extension is what follows the last
    dot of the file's name, with the dot, when something stands before and
    after that dot; a name without a dot has none. *)
Theorem C8_static_file (req : request) (fs : filesystem) (cands : list string)
    (content : string) :
  stat fs (get_target env (path req)) = Ok (File content) ->
  serve (do_GET env req) fs cands
  = (Ok tt,
     World fs cands
       [ StatusLine 200 "OK";
         Header "Server" (version_string env);
         Header "Date" (date_time_string env);
         Header "Access-Control-Allow-Origin" "*";
         Header "Cache-Control" "no-cache";
         Header "Content-Type"
           (spec_media_type (suffix (get_target env (path req))));
         EndHeaders;
         Body content ])
  /\ (forall stem ext,
        name (get_target env (path req)) = stem +:+ String "." ext ->
        stem <> "" -> ext <> "" -> count_char "." ext = 0%nat ->
        suffix (get_target env (path req)) = String "." ext)
  /\ (count_char "." (name (get_target env (path req))) = 0%nat ->
      suffix (get_target env (path req)) = "").
Proof.
  intros Hstat. split; [| split].
  - unfold do_GET. run_handler.
    repeat (progress (cbn; rewrite ?Hstat)).
    now rewrite <- guess_type_table.
  - apply suffix_of_name.
  - apply suffix_without_dot.
Qed.

Lemma getitem_contains (form : list part) (key : string) (it : item) :
  getitem form key = Ok it -> contains form key = true.
Proof.
  unfold getitem, contains. intros H.
  destruct (List.filter (named key) form) as [|f l] eqn:Hf; [discriminate |].
  assert (Hin : In f (List.filter (named key) form)) by (rewrite Hf; now left).
  apply List.filter_In in Hin as [Hin Hnamed].
  apply List.existsb_exists. eauto.
Qed.

(** A request that passes validation reaches the storing of the upload. *)
Lemma accepted_dispatch (veo : collaborator) (req : request) (form : list part)
    (f : part) (fname sfx : string) (w : world) :
  accepted env req form f fname sfx ->
  do_POST_with env veo req w
  = store_and_dispatch env veo (file f) sfx (prompt_of form) w.
Proof.
  intros (Hpath & Hct & (n & Hlen & Hn) & Hform & Hitem & Hname & Hne & Hsfx & Hok).
  unfold do_POST_with. rewrite Hpath, Hct. cbn [String.eqb negb].
  change (String.eqb "/api/generate" "/api/generate") with true.
  change (String.eqb "multipart/form-data" "multipart/form-data") with true.
  cbn [negb]. unfold bind at 1, lift at 1. rewrite Hlen.
  replace (n >? MAX_UPLOAD) with false by (symmetry; rewrite Z.gtb_ltb; apply Z.ltb_ge; lia).
  unfold bind at 1, lift at 1. rewrite Hform.
  unfold handle_form. rewrite (getitem_contains _ _ _ Hitem), Hitem.
  unfold bind, lift, ret. cbn [getattr_filename the_upload]. rewrite Hname.
  cbn [Py.truthy fst snd].
  apply String.eqb_neq in Hne. rewrite Hne. cbn [negb].
  rewrite <- Hsfx.
  replace (String.eqb sfx ".gltf" || String.eqb sfx ".glb") with true
    by (destruct Hok as [H|H]; rewrite H; reflexivity).
  reflexivity.
Qed.

Lemma tmp_leaf_not_dotdot (n suf : string) :
  String.eqb ("tmp" +:+ n +:+ suf) ".." = false.
Proof. reflexivity. Qed.

(** The temporary file, once the upload is copied into it. *)
Lemma temp_file_written (sfx upload : string) (w w1 : world)
    (fd : list string) (tp : PurePath) :
  mkstemp sfx (UPLOAD_DIR env) w = (Ok (fd, tp), w1) ->
  files w !! fd = None
  /\ wfile w1 = wfile w
  /\ <[fd := File upload]> (files w1) = <[fd := File upload]> (files w)
  /\ resolve (<[fd := File upload]> (files w)) tp = Ok fd
  /\ entry_at (<[fd := File upload]> (files w)) fd = Some (File upload).
Proof.
  intros Hmk. unfold mkstemp in Hmk. apply mkstemp_inner_ok in Hmk.
  destruct Hmk as (n & d & _ & Hres & Hd & -> & -> & Hfree & Hfiles & Hout
                   & Hlen & Hname).
  apply entry_at_lookup in Hfree as Hfree'. destruct Hfree' as [Hnone Hnil].
  split; [exact Hnone |]. split; [exact Hout |].
  split; [now rewrite Hfiles, insert_insert_eq |].
  split; [| now apply entry_at_insert_eq].
  apply resolve_ok in Hres as (_ & Hwalk).
  apply resolve_ok. change (parts (UPLOAD_DIR env // MkPath "" ["tmp" +:+ n +:+ sfx]))
    with (parts (UPLOAD_DIR env) ++ ["tmp" +:+ n +:+ sfx]).
  split; [exact Hlen |].
  rewrite walk_app.
  rewrite (walk_insert_fresh _ _ _ _ _ _ Hfree Hwalk).
  cbn [walk]. rewrite entry_at_insert_ne by congruence. rewrite Hd.
  rewrite tmp_leaf_not_dotdot.
  apply Z.ltb_ge in Hname. rewrite Hname.
  rewrite entry_at_insert_eq by exact Hnil. reflexivity.
Qed.

(** Copying an upload that the device takes. *)
Lemma copy_stored (f : part) (fd : list string) (w : world) :
  stored env f ->
  copy_to_fd (storage env) (file f) fd w
  = (Ok tt, World (<[fd := File (data f)]> (files w)) (names w) (wfile w)).
Proof.
  intros [Hfile Hsto]. rewrite Hfile. unfold copy_to_fd, bind, get_files, put_files.
  now rewrite Hsto.
Qed.

(** The run of the module's stub on a stored upload: the temporary file is
    gone again and the answer carries what the stub returned for it. *)
Lemma store_and_dispatch_stub (f : part) (sfx : string) (prompt : option pyval)
    (w w1 : world) (fd : list string) (tp : PurePath) :
  stored env f ->
  mkstemp sfx (UPLOAD_DIR env) w = (Ok (fd, tp), w1) ->
  store_and_dispatch env (veo_stub) (file f) sfx prompt w
  = match Json.dumps (generate_video_using_veo tp prompt) with
    | Ok body =>
        (Ok tt,
         World (files w) (names w1)
           (wfile w ++
              [ StatusLine 200 "OK";
                Header "Server" (version_string env);
                Header "Date" (date_time_string env);
                Header "Access-Control-Allow-Origin" "*";
                Header "Cache-Control" "no-cache";
                Header "Content-Type" "application/json";
                Header "Content-Length" (Py.str_of_nat (String.length body));
                EndHeaders;
                Body body ]))
    | Raise e => (Raise e, World (files w) (names w1) (wfile w))
    end.
Proof.
  intros Hst Hmk. unfold store_and_dispatch. unfold bind at 1. rewrite Hmk.
  destruct (temp_file_written _ (data f) _ _ _ _ Hmk)
    as (Hnone & Hout & Hins & Hres & Hent).
  unfold bind at 1. rewrite (copy_stored _ _ _ Hst). rewrite Hins, Hout.
  unfold try_finally, veo_stub, unlink_missing_ok.
  unfold bind, get_files, put_files, ret, lift. cbn [files names wfile].
  rewrite Hres, Hent. cbn [files names wfile].
  rewrite delete_insert_id by exact Hnone.
  destruct (Json.dumps _) as [body|e]; [| reflexivity].
  unfold send_response, _send_common_headers, send_header, end_headers,
    wfile_write, emit, bind. cbn [files names wfile status_value status_phrase].
  rewrite <- !app_assoc. reflexivity.
Qed.

(** The copy fails exactly for an upload that is not stored. *)
Lemma copy_failure_stored (f : part) :
  copy_failure (storage env) (file f) = None <-> stored env f.
Proof.
  unfold stored, copy_failure, data. destruct (file f) as [d|]; simpl.
  - destruct (storage env d) as [[k errno]|]; split; auto.
    + discriminate.
    + intros [_ H]. discriminate.
  - split; [discriminate | intros [H _]; discriminate].
Qed.

(** When the copy fails the exception goes up at once: the collaborator is
    not called, nothing is written, and the temporary file stays. *)
Lemma store_and_dispatch_copy_fails (veo : collaborator) (src : option string)
    (sfx : string) (prompt : option pyval) (w w1 : world) (fd : list string)
    (tp : PurePath) (e : exn) (partial : string) :
  mkstemp sfx (UPLOAD_DIR env) w = (Ok (fd, tp), w1) ->
  copy_failure (storage env) src = Some (e, partial) ->
  store_and_dispatch env veo src sfx prompt w
  = (Raise e, World (<[fd := File partial]> (files w)) (names w1) (wfile w)).
Proof.
  intros Hmk Hfail. unfold store_and_dispatch. unfold bind at 1. rewrite Hmk.
  destruct (temp_file_written _ partial _ _ _ _ Hmk)
    as (Hnone & Hout & Hins & Hres & Hent).
  unfold bind at 1, copy_to_fd. unfold copy_failure in Hfail.
  destruct src as [data|].
  - unfold bind, get_files, put_files, raise.
    destruct (storage env data) as [[k errno]|]; [| discriminate].
    injection Hfail as <- <-. cbn [files names wfile]. now rewrite Hins, Hout.
  - injection Hfail as <- <-. unfold raise.
    unfold mkstemp in Hmk. apply mkstemp_inner_ok in Hmk.
    destruct Hmk as (n & d & _ & _ & _ & _ & _ & _ & Hfiles & Hout' & _).
    rewrite <- Hfiles, <- Hout'. now destruct w1.
Qed.

Lemma send_error_run (code : HTTPStatus) (message : string) (w : world) :
  send_error env code message w
  = (Ok tt,
     World (files w) (names w)
       (wfile w ++
          [ StatusLine (status_value code) message;
            Header "Server" (version_string env);
            Header "Date" (date_time_string env);
            Header "Connection" "close";
            Header "Content-Type" "text/html;charset=utf-8";
            Header "Content-Length"
              (Py.str_of_nat (String.length (error_page env code message)));
            EndHeaders;
            Body (error_page env code message) ])).
Proof.
  unfold send_error, send_response, send_header, end_headers, wfile_write,
    emit, bind. cbn [files names wfile]. rewrite <- !app_assoc. reflexivity.
Qed.

(** The checks on the request head, when they pass. *)
Lemma head_checks_pass (veo : collaborator) (req : request) (n : Z) (w : world) :
  path req = "/api/generate" ->
  content_type req = "multipart/form-data" ->
  declared_length req = Ok n ->
  n <= MAX_UPLOAD ->
  do_POST_with env veo req w
  = (form <- lift (FieldStorage env req) ;; handle_form env veo form) w.
Proof.
  intros Hpath Hct Hlen Hn. unfold do_POST_with. rewrite Hpath, Hct.
  change (String.eqb "/api/generate" "/api/generate") with true.
  change (String.eqb "multipart/form-data" "multipart/form-data") with true.
  cbn [negb]. unfold bind at 1, lift at 1. rewrite Hlen.
  replace (n >? MAX_UPLOAD) with false
    by (symmetry; rewrite Z.gtb_ltb; apply Z.ltb_ge; lia).
  reflexivity.
Qed.

(** The stub never changes what was written nor the answer's status line:
    a run of the form checks ends without an answer, or with 400, 415 or
    200. *)
Lemma handle_form_status (form : list part) (fs : filesystem) (cands : list string) :
  In (response_status (wfile (snd (handle_form env (veo_stub) form (World fs cands [])))))
     [None; Some 400; Some 415; Some 200].
Proof.
  unfold handle_form, bind, lift, ret.
  destruct (contains form "model").
  - destruct (getitem form "model") as [[f|l]|e]; cbn [getattr_filename Py.truthy].
    + destruct (filename f) as [fname|] eqn:Hf; cbn [Py.truthy negb].
      * destruct (String.eqb fname ""); cbn [negb].
        { rewrite send_error_run. cbn. auto. }
        cbn [the_upload]. rewrite Hf. cbn [fst snd].
        destruct (negb _).
        { rewrite send_error_run. cbn. auto. }
        destruct (mkstemp (Py.lower (suffix (Path fname))) (UPLOAD_DIR env)
                    (World fs cands [])) as [[[fd tp]|e] w1] eqn:Hmk.
        -- destruct (copy_failure (storage env) (file f)) as [[e partial]|] eqn:Hcopy.
           ++ rewrite (store_and_dispatch_copy_fails _ _ _ _ _ _ _ _ _ _ Hmk Hcopy).
              cbn. auto.
           ++ apply copy_failure_stored in Hcopy.
              rewrite (store_and_dispatch_stub _ _ _ _ _ _ _ Hcopy Hmk).
              destruct (Json.dumps _); cbn; auto.
        -- unfold store_and_dispatch, bind. rewrite Hmk.
           apply mkstemp_inner_raise in Hmk as [_ Hout]. cbn in Hout |- *.
           rewrite Hout. cbn. auto.
      * rewrite send_error_run. cbn. auto.
    + change (negb (negb (String.eqb "" ""))) with true. cbv iota.
      rewrite send_error_run. cbn. auto.
    + cbn. auto.
  - rewrite send_error_run. cbn. auto.
Qed.

(** Removing a path that names nothing is not an error and changes
    nothing. *)
Lemma unlink_missing (p : PurePath) (w : world) :
  stat (files w) p = Raise FileNotFoundError ->
  unlink_missing_ok p w = (Ok tt, w).
Proof.
  unfold unlink_missing_ok, stat, bind, get_files, ret.
  destruct (resolve (files w) p) as [loc|e].
  - destruct (entry_at (files w) loc) as [[c|]|]; try discriminate. reflexivity.
  - intros H. injection H as ->. reflexivity.
Qed.

(** C2: once a request has passed validation and its upload has been
    written to the temporary file [tp], that path names no file when the
    handler is done, whatever the collaborator did, returned or raised;
    removing the file when it is already gone is not an error; and with
    the collaborator of the module the file system is back to what it was
    before the request. *)
Theorem C2_temp_file_removed (veo : collaborator) (req : request)
    (form : list part) (f : part) (fname sfx : string)
    (fs : filesystem) (cands : list string)
    (fd : list string) (tp : PurePath) (w1 : world) :
  accepted env req form f fname sfx ->
  stored env f ->
  mkstemp sfx (UPLOAD_DIR env) (World fs cands []) = (Ok (fd, tp), w1) ->
  (forall content,
      stat (files (snd (serve (do_POST_with env veo req) fs cands))) tp
      <> Ok (File content))
  /\ (forall w, stat (files w) tp = Raise FileNotFoundError ->
               unlink_missing_ok tp w = (Ok tt, w))
  /\ files (snd (serve (do_POST env req) fs cands)) = fs.
Proof.
  intros Hacc Hst Hmk. unfold serve, do_POST. split; [| split].
  - intros content. rewrite (accepted_dispatch _ _ _ _ _ _ _ Hacc).
    unfold store_and_dispatch. unfold bind at 1. rewrite Hmk.
    unfold bind at 1. rewrite (copy_stored _ _ _ Hst).
    unfold bind at 1, try_finally.
    destruct (veo tp (prompt_of form) _) as [r w3].
    pose proof (unlink_no_file tp w3 content) as Hgone.
    destruct (unlink_missing_ok tp w3) as [[[]|e] w4]; cbn [snd] in Hgone.
    + destruct r as [payload|e]; [| exact Hgone].
      unfold bind, lift. destruct (Json.dumps payload); exact Hgone.
    + exact Hgone.
  - intros w. apply unlink_missing.
  - rewrite (accepted_dispatch _ _ _ _ _ _ _ Hacc).
    rewrite (store_and_dispatch_stub _ _ _ _ _ _ _ Hst Hmk).
    destruct (Json.dumps _); reflexivity.
Qed.

(** C3 (amended): a POST to /api/generate whose Content-Type is
    multipart/form-data and whose declared Content-Length is an integer
    above 104,857,600 is answered 413, and the file system is untouched. *)
Theorem C3_declared_length_over_limit (req : request) (n : Z)
    (fs : filesystem) (cands : list string) :
  path req = "/api/generate" ->
  content_type req = "multipart/form-data" ->
  declared_length req = Ok n ->
  n > 104857600 ->
  fst (serve (do_POST env req) fs cands) = Ok tt
  /\ response_status (wfile (snd (serve (do_POST env req) fs cands))) = Some 413
  /\ files (snd (serve (do_POST env req) fs cands)) = fs.
Proof.
  intros Hpath Hct Hlen Hn. unfold serve.
  assert (Hrun : forall w, do_POST env req w
                 = send_error env REQUEST_ENTITY_TOO_LARGE "File too large" w).
  { intros w. unfold do_POST, do_POST_with. rewrite Hpath, Hct.
    change (String.eqb "/api/generate" "/api/generate") with true.
    change (String.eqb "multipart/form-data" "multipart/form-data") with true.
    cbn [negb]. unfold bind at 1, lift at 1. rewrite Hlen.
    replace (n >? MAX_UPLOAD) with true
      by (symmetry; rewrite Z.gtb_ltb; apply Z.ltb_lt; unfold MAX_UPLOAD; lia).
    reflexivity. }
  rewrite Hrun, send_error_run. cbn. repeat split; reflexivity.
Qed.


(** C5 (amended): a multipart POST to /api/generate whose declared length
    is an integer that does not exceed the limit (0 when the header is
    absent), whose body the multipart parser reads as a form, and whose
    form has one model part with a non-empty file name whose extension,
    lowered, is neither .gltf nor .glb is answered 415, and the file system
    is untouched. *)
Theorem C5_unsupported_extension (req : request) (n : Z) (form : list part)
    (f : part) (fname : string) (fs : filesystem) (cands : list string) :
  path req = "/api/generate" ->
  content_type req = "multipart/form-data" ->
  declared_length req = Ok n ->
  n <= 104857600 ->
  FieldStorage env req = Ok form ->
  getitem form "model" = Ok (One f) ->
  filename f = Some fname ->
  fname <> "" ->
  Py.lower (suffix (Path fname)) <> ".gltf" ->
  Py.lower (suffix (Path fname)) <> ".glb" ->
  fst (serve (do_POST env req) fs cands) = Ok tt
  /\ response_status (wfile (snd (serve (do_POST env req) fs cands))) = Some 415
  /\ files (snd (serve (do_POST env req) fs cands)) = fs.
Proof.
  intros Hpath Hct Hlen Hn Hform Hitem Hname Hne Hgltf Hglb. unfold serve.
  assert (Hrun : forall w, do_POST env req w
                 = send_error env UNSUPPORTED_MEDIA_TYPE
                     "Only GLTF/GLB files are supported" w).
  { intros w. unfold do_POST.
    rewrite (head_checks_pass _ _ n) by (auto; unfold MAX_UPLOAD; lia).
    unfold bind at 1, lift at 1. rewrite Hform. unfold handle_form, bind, lift, ret.
    rewrite (getitem_contains _ _ _ Hitem), Hitem.
    cbn [getattr_filename the_upload]. rewrite Hname. cbn [Py.truthy fst snd].
    apply String.eqb_neq in Hne, Hgltf, Hglb. rewrite Hne, Hgltf, Hglb.
    reflexivity. }
  rewrite Hrun, send_error_run. cbn. repeat split; reflexivity.
Qed.

Lemma name_of_temp (dir : PurePath) (leaf : string) :
  name (dir // MkPath "" [leaf]) = leaf.
Proof. unfold name. cbn. apply List.last_last. Qed.


(** C9: a valid upload whose prompt field is present and is the empty
    string is answered 200 with usedPrompt equal to the default text. *)
Theorem C9_empty_prompt_is_default (req : request) (form : list part) (f : part)
    (fname sfx : string) (fs : filesystem) (cands : list string)
    (fd : list string) (tp : PurePath) (w1 : world) :
  accepted env req form f fname sfx ->
  stored env f ->
  contains form "prompt" = true ->
  getfirst form "prompt" = Some (PyStr "") ->
  mkstemp sfx (UPLOAD_DIR env) (World fs cands []) = (Ok (fd, tp), w1) ->
  fst (serve (do_POST env req) fs cands) = Ok tt
  /\ response_status (wfile (snd (serve (do_POST env req) fs cands))) = Some 200
  /\ response_body (wfile (snd (serve (do_POST env req) fs cands)))
     = Json.object
         [ ("videoUrl", "https://example.com/generated-veo-ad.mp4");
           ("jobId", "demo-job-1234");
           ("status", "queued");
           ("usedPrompt", "(default prompt)");
           ("sourceModel", name tp) ].
Proof.
  intros Hacc Hst Hin Hfirst Hmk. unfold serve, do_POST.
  rewrite (accepted_dispatch _ _ _ _ _ _ _ Hacc).
  rewrite (store_and_dispatch_stub _ _ _ _ _ _ _ Hst Hmk).
  unfold prompt_of. rewrite Hin, Hfirst. cbn.
  rewrite append_empty_r. repeat split; auto.
Qed.

(** C10 (amended): a POST to /api/generate without a Content-Length header
    has declared length 0 and is never answered 413; when its Content-Type
    is multipart/form-data it goes on to the multipart parse. *)
Theorem C10_absent_length_is_zero (req : request) :
  path req = "/api/generate" ->
  headers_get (headers req) "Content-Length" = None ->
  declared_length req = Ok 0
  /\ (forall fs cands,
        response_status (wfile (snd (serve (do_POST env req) fs cands))) <> Some 413)
  /\ (content_type req = "multipart/form-data" ->
      forall w,
        do_POST env req w
        = (form <- lift (FieldStorage env req) ;; handle_form env (veo_stub) form) w).
Proof.
  intros Hpath Hnone.
  assert (Hlen : declared_length req = Ok 0)
    by (unfold declared_length; now rewrite Hnone).
  split; [exact Hlen |]. split.
  - intros fs cands. unfold serve, do_POST.
    destruct (String.eqb (content_type req) "multipart/form-data") eqn:Hct.
    + apply String.eqb_eq in Hct.
      rewrite (head_checks_pass _ _ 0) by (auto; unfold MAX_UPLOAD; lia).
      unfold bind, lift. destruct (FieldStorage env req) as [form|e].
      * pose proof (handle_form_status form fs cands) as H.
        intros Heq. rewrite Heq in H. cbn in H.
        repeat (destruct H as [H|H]; [discriminate |]). exact H.
      * cbn. discriminate.
    + unfold do_POST_with. rewrite Hpath, Hct.
      change (String.eqb "/api/generate" "/api/generate") with true. cbn [negb].
      rewrite send_error_run. cbn. discriminate.
  - intros Hct w. unfold do_POST.
    apply (head_checks_pass _ _ 0); auto. unfold MAX_UPLOAD. lia.
Qed.

End Properties.


(** C8 on the front page of the concrete deployment: the whole response,
    with Content-Type text/html for index.html. *)
Lemma C8_static_file_witness :
  stat Demo.fs (get_target (Demo.env (Ok [])) "/") = Ok (File "<html></html>")
  /\ serve (do_GET (Demo.env (Ok [])) (Request "/" [] "")) Demo.fs []
     = (Ok tt,
        World Demo.fs []
          [ StatusLine 200 "OK";
            Header "Server" "VeoUploadServer/0.1 Python/3.10.12";
            Header "Date" "Thu, 01 Jan 2026 00:00:00 GMT";
            Header "Access-Control-Allow-Origin" "*";
            Header "Cache-Control" "no-cache";
            Header "Content-Type" "text/html";
            EndHeaders;
            Body "<html></html>" ])
  /\ suffix (get_target (Demo.env (Ok [])) "/") = ".html".
Proof.
  assert (H1 : stat Demo.fs (get_target (Demo.env (Ok [])) "/")
               = Ok (File "<html></html>")) by (vm_compute; reflexivity).
  pose proof (C8_static_file (Demo.env (Ok [])) (Request "/" [] "") Demo.fs []
                "<html></html>" H1) as (Hrun & Hext & _).
  split; [exact H1 |]. split; [exact Hrun |].
  apply (Hext "index" "html"); [reflexivity | discriminate | discriminate | reflexivity].
Defined.

(** ** The claims on the concrete deployment *)

(** The upload of car.glb passes validation, and [mkstemp] takes the first
    candidate name for it. *)
Lemma car_upload_accepted :
  accepted (Demo.env (Ok Demo.car_form)) Demo.upload Demo.car_form
    (Part (Some "model") (Some "car.glb") "glTF") "car.glb" ".glb".
Proof.
  unfold accepted. repeat split; try reflexivity.
  - exists 4096. split; [reflexivity | unfold MAX_UPLOAD; lia].
  - discriminate.
  - now right.
Qed.

Lemma car_upload_stored :
  stored (Demo.env (Ok Demo.car_form)) (Part (Some "model") (Some "car.glb") "glTF").
Proof. split; reflexivity. Qed.

Lemma car_upload_mkstemp :
  mkstemp ".glb" (UPLOAD_DIR (Demo.env (Ok Demo.car_form)))
    (World Demo.fs Demo.candidates [])
  = (Ok (Demo.temp_fd, Demo.temp_path), Demo.after_mkstemp).
Proof. vm_compute. reflexivity. Qed.

(** C1: the request path /../../etc/passwd resolves to /etc/passwd, outside
    the public root /app/public, and the handler answers 200 with the
    bytes of that file. *)
Theorem C1_traversal_serves_outside_file :
  resolve Demo.fs (PUBLIC_DIR (Demo.env (Ok []))) = Ok ["app"; "public"]
  /\ _translate_path (path Demo.traversal) = MkPath "" [".."; ".."; "etc"; "passwd"]
  /\ resolve Demo.fs (get_target (Demo.env (Ok [])) (path Demo.traversal))
     = Ok ["etc"; "passwd"]
  /\ under ["app"; "public"] ["etc"; "passwd"] = false
  /\ response_status
       (wfile (snd (serve (do_GET (Demo.env (Ok [])) Demo.traversal) Demo.fs [])))
     = Some 200
  /\ response_body
       (wfile (snd (serve (do_GET (Demo.env (Ok [])) Demo.traversal) Demo.fs [])))
     = "root:x:0:0:root:/root:/bin/sh".
Proof. repeat split; vm_compute; reflexivity. Qed.

(** C2 on the upload of car.glb, with a collaborator that raises. *)
Lemma C2_temp_file_removed_witness :
  accepted (Demo.env (Ok Demo.car_form)) Demo.upload Demo.car_form
    (Part (Some "model") (Some "car.glb") "glTF") "car.glb" ".glb"
  /\ stored (Demo.env (Ok Demo.car_form))
       (Part (Some "model") (Some "car.glb") "glTF")
  /\ mkstemp ".glb" (UPLOAD_DIR (Demo.env (Ok Demo.car_form)))
       (World Demo.fs Demo.candidates [])
     = (Ok (Demo.temp_fd, Demo.temp_path), Demo.after_mkstemp)
  /\ (forall content,
        stat (files (snd (serve (do_POST_with (Demo.env (Ok Demo.car_form))
                                   Demo.failing_veo Demo.upload)
                            Demo.fs Demo.candidates)))
          Demo.temp_path
        <> Ok (File content))
  /\ (forall w, stat (files w) Demo.temp_path = Raise FileNotFoundError ->
               unlink_missing_ok Demo.temp_path w = (Ok tt, w))
  /\ files (snd (serve (do_POST (Demo.env (Ok Demo.car_form)) Demo.upload)
                   Demo.fs Demo.candidates))
     = Demo.fs.
Proof.
  split; [exact car_upload_accepted |]. split; [exact car_upload_stored |].
  split; [exact car_upload_mkstemp |].
  exact (C2_temp_file_removed (Demo.env (Ok Demo.car_form)) Demo.failing_veo
           Demo.upload Demo.car_form _ "car.glb" ".glb" Demo.fs Demo.candidates
           Demo.temp_fd Demo.temp_path Demo.after_mkstemp
           car_upload_accepted car_upload_stored car_upload_mkstemp).
Defined.

(** C3 as stated fails: the same declared length on a body that is not
    multipart is answered 400 by the Content-Type check. *)
Lemma C3_counterexample :
  path Demo.oversized_raw = "/api/generate"
  /\ declared_length Demo.oversized_raw = Ok 104857601
  /\ 104857601 > 104857600
  /\ response_status
       (wfile (snd (serve (do_POST (Demo.env (Ok Demo.car_form)) Demo.oversized_raw)
                      Demo.fs Demo.candidates)))
     = Some 400
  /\ response_status
       (wfile (snd (serve (do_POST (Demo.env (Ok Demo.car_form)) Demo.oversized_raw)
                      Demo.fs Demo.candidates)))
     <> Some 413.
Proof. repeat split; try (vm_compute; reflexivity). vm_compute. discriminate. Qed.

(** C3 (amended) on a multipart upload that declares 104,857,601 bytes. *)
Lemma C3_declared_length_over_limit_witness :
  path Demo.oversized = "/api/generate"
  /\ content_type Demo.oversized = "multipart/form-data"
  /\ declared_length Demo.oversized = Ok 104857601
  /\ 104857601 > 104857600
  /\ fst (serve (do_POST (Demo.env (Ok Demo.car_form)) Demo.oversized)
            Demo.fs Demo.candidates) = Ok tt
  /\ response_status
       (wfile (snd (serve (do_POST (Demo.env (Ok Demo.car_form)) Demo.oversized)
                      Demo.fs Demo.candidates)))
     = Some 413
  /\ files (snd (serve (do_POST (Demo.env (Ok Demo.car_form)) Demo.oversized)
                   Demo.fs Demo.candidates))
     = Demo.fs.
Proof.
  assert (H1 : path Demo.oversized = "/api/generate") by reflexivity.
  assert (H2 : content_type Demo.oversized = "multipart/form-data") by reflexivity.
  assert (H3 : declared_length Demo.oversized = Ok 104857601) by reflexivity.
  assert (H4 : 104857601 > 104857600) by lia.
  exact (conj H1 (conj H2 (conj H3 (conj H4
           (C3_declared_length_over_limit (Demo.env (Ok Demo.car_form))
              Demo.oversized 104857601 Demo.fs Demo.candidates H1 H2 H3 H4))))).
Defined.



(** C5 as stated fails: a multipart upload of notes.txt that declares more
    than the limit is answered 413, not 415. *)
Lemma C5_counterexample :
  path Demo.oversized = "/api/generate"
  /\ content_type Demo.oversized = "multipart/form-data"
  /\ getitem Demo.text_form "model"
     = Ok (One (Part (Some "model") (Some "notes.txt") "hello"))
  /\ Py.lower (suffix (Path "notes.txt")) = ".txt"
  /\ response_status
       (wfile (snd (serve (do_POST (Demo.env (Ok Demo.text_form)) Demo.oversized)
                      Demo.fs Demo.candidates)))
     = Some 413
  /\ response_status
       (wfile (snd (serve (do_POST (Demo.env (Ok Demo.text_form)) Demo.oversized)
                      Demo.fs Demo.candidates)))
     <> Some 415.
Proof. repeat split; try (vm_compute; reflexivity). vm_compute. discriminate. Qed.

(** C5 (amended) on the upload of notes.txt. *)
Lemma C5_unsupported_extension_witness :
  path Demo.upload = "/api/generate"
  /\ content_type Demo.upload = "multipart/form-data"
  /\ declared_length Demo.upload = Ok 4096
  /\ 4096 <= 104857600
  /\ getitem Demo.text_form "model"
     = Ok (One (Part (Some "model") (Some "notes.txt") "hello"))
  /\ Py.lower (suffix (Path "notes.txt")) = ".txt"
  /\ fst (serve (do_POST (Demo.env (Ok Demo.text_form)) Demo.upload)
            Demo.fs Demo.candidates) = Ok tt
  /\ response_status
       (wfile (snd (serve (do_POST (Demo.env (Ok Demo.text_form)) Demo.upload)
                      Demo.fs Demo.candidates)))
     = Some 415
  /\ files (snd (serve (do_POST (Demo.env (Ok Demo.text_form)) Demo.upload)
                   Demo.fs Demo.candidates))
     = Demo.fs.
Proof.
  assert (H1 : path Demo.upload = "/api/generate") by reflexivity.
  assert (H2 : content_type Demo.upload = "multipart/form-data") by reflexivity.
  assert (H3 : declared_length Demo.upload = Ok 4096) by reflexivity.
  assert (H4 : 4096 <= 104857600) by lia.
  assert (H5 : FieldStorage (Demo.env (Ok Demo.text_form)) Demo.upload
               = Ok Demo.text_form) by reflexivity.
  assert (H6 : getitem Demo.text_form "model"
               = Ok (One (Part (Some "model") (Some "notes.txt") "hello")))
    by reflexivity.
  assert (H7 : filename (Part (Some "model") (Some "notes.txt") "hello")
               = Some "notes.txt") by reflexivity.
  assert (H8 : "notes.txt" <> "") by discriminate.
  assert (H9 : Py.lower (suffix (Path "notes.txt")) = ".txt") by reflexivity.
  assert (H10 : Py.lower (suffix (Path "notes.txt")) <> ".gltf")
    by (rewrite H9; discriminate).
  assert (H11 : Py.lower (suffix (Path "notes.txt")) <> ".glb")
    by (rewrite H9; discriminate).
  exact (conj H1 (conj H2 (conj H3 (conj H4 (conj H6 (conj H9
           (C5_unsupported_extension (Demo.env (Ok Demo.text_form)) Demo.upload 4096
              Demo.text_form _ "notes.txt" Demo.fs Demo.candidates
              H1 H2 H3 H4 H5 H6 H7 H8 H10 H11))))))).
Defined.



(** The same for scene.GLTF: the suffix is lowered before it is checked
    and before it names the temporary file. *)
Lemma blank_prompt_accepted :
  accepted (Demo.env (Ok Demo.blank_prompt_form)) Demo.upload Demo.blank_prompt_form
    (Part (Some "model") (Some "scene.GLTF") "{}") "scene.GLTF" ".gltf".
Proof.
  unfold accepted. repeat split; try reflexivity.
  - exists 4096. split; [reflexivity | unfold MAX_UPLOAD; lia].
  - discriminate.
  - now left.
Qed.

Lemma blank_prompt_stored :
  stored (Demo.env (Ok Demo.blank_prompt_form))
    (Part (Some "model") (Some "scene.GLTF") "{}").
Proof. split; reflexivity. Qed.

Lemma blank_prompt_mkstemp :
  mkstemp ".gltf" (UPLOAD_DIR (Demo.env (Ok Demo.blank_prompt_form)))
    (World Demo.fs Demo.candidates [])
  = (Ok (Demo.gltf_fd, Demo.gltf_path), Demo.gltf_after_mkstemp).
Proof. vm_compute. reflexivity. Qed.

(** C9 on the upload of scene.GLTF with an empty prompt part. *)
Lemma C9_empty_prompt_is_default_witness :
  contains Demo.blank_prompt_form "prompt" = true
  /\ getfirst Demo.blank_prompt_form "prompt" = Some (PyStr "")
  /\ fst (serve (do_POST (Demo.env (Ok Demo.blank_prompt_form)) Demo.upload)
            Demo.fs Demo.candidates) = Ok tt
  /\ response_status
       (wfile (snd (serve (do_POST (Demo.env (Ok Demo.blank_prompt_form)) Demo.upload)
                      Demo.fs Demo.candidates)))
     = Some 200
  /\ response_body
       (wfile (snd (serve (do_POST (Demo.env (Ok Demo.blank_prompt_form)) Demo.upload)
                      Demo.fs Demo.candidates)))
     = Json.object
         [ ("videoUrl", "https://example.com/generated-veo-ad.mp4");
           ("jobId", "demo-job-1234");
           ("status", "queued");
           ("usedPrompt", "(default prompt)");
           ("sourceModel", name Demo.gltf_path) ].
Proof.
  assert (H1 : contains Demo.blank_prompt_form "prompt" = true) by reflexivity.
  assert (H2 : getfirst Demo.blank_prompt_form "prompt" = Some (PyStr ""))
    by reflexivity.
  exact (conj H1 (conj H2
           (C9_empty_prompt_is_default (Demo.env (Ok Demo.blank_prompt_form))
              Demo.upload Demo.blank_prompt_form _ "scene.GLTF" ".gltf"
              Demo.fs Demo.candidates Demo.gltf_fd Demo.gltf_path
              Demo.gltf_after_mkstemp
              blank_prompt_accepted blank_prompt_stored H1 H2
              blank_prompt_mkstemp))).
Defined.

(** C10 as stated fails: without a Content-Length header and with a
    Content-Type that is not multipart/form-data the request is answered
    400 and the multipart parser is not reached. *)
Lemma C10_counterexample :
  path Demo.unsized_text = "/api/generate"
  /\ headers_get (headers Demo.unsized_text) "Content-Length" = None
  /\ serve (do_POST (Demo.env Demo.parser_reached) Demo.unsized_text)
       Demo.fs Demo.candidates
     = serve (send_error (Demo.env Demo.parser_reached) BAD_REQUEST
                "Expected multipart/form-data")
         Demo.fs Demo.candidates
  /\ fst (serve (do_POST (Demo.env Demo.parser_reached) Demo.unsized_text)
            Demo.fs Demo.candidates) = Ok tt
  /\ fst (serve (form <- lift (FieldStorage (Demo.env Demo.parser_reached)
                                Demo.unsized_text) ;;
                 handle_form (Demo.env Demo.parser_reached) veo_stub form)
            Demo.fs Demo.candidates)
     = Raise (Exception "multipart parser reached").
Proof. repeat split; vm_compute; reflexivity. Qed.

(** C10 (amended) on a multipart upload without a Content-Length header. *)
Lemma C10_absent_length_is_zero_witness :
  path Demo.unsized = "/api/generate"
  /\ headers_get (headers Demo.unsized) "Content-Length" = None
  /\ declared_length Demo.unsized = Ok 0
  /\ (forall fs cands,
        response_status
          (wfile (snd (serve (do_POST (Demo.env (Ok Demo.car_form)) Demo.unsized)
                         fs cands)))
        <> Some 413)
  /\ (content_type Demo.unsized = "multipart/form-data" ->
      forall w,
        do_POST (Demo.env (Ok Demo.car_form)) Demo.unsized w
        = (form <- lift (FieldStorage (Demo.env (Ok Demo.car_form)) Demo.unsized) ;;
           handle_form (Demo.env (Ok Demo.car_form)) veo_stub form) w).
Proof.
  assert (H1 : path Demo.unsized = "/api/generate") by reflexivity.
  assert (H2 : headers_get (headers Demo.unsized) "Content-Length" = None)
    by reflexivity.
  exact (conj H1 (conj H2
           (C10_absent_length_is_zero (Demo.env (Ok Demo.car_form)) Demo.unsized
              H1 H2))).
Defined.
(** * Further properties *)

Section Strings.

Lemma append_cons (a : ascii) (s t : string) : String a s +:+ t = String a (s +:+ t).
Proof. reflexivity. Qed.

Lemma startswith_slash (a : ascii) (r : string) :
  Py.startswith "/" (String a r) = Ascii.eqb a "/".
Proof.
  destruct a as [[] [] [] [] [] [] [] []]; destruct r; reflexivity.
Qed.

Lemma split_no_sep (c : ascii) (s : string) :
  count_char c s = 0%nat -> Py.split c s = [s].
Proof.
  induction s as [|a s IH]; cbn; [reflexivity |].
  destruct (Ascii.eqb a c); [discriminate |]. cbn. intros H.
  now rewrite (IH H).
Qed.

Lemma split_app_sep (c : ascii) (x r : string) :
  count_char c x = 0%nat -> Py.split c (x +:+ String c r) = x :: Py.split c r.
Proof.
  induction x as [|a x IH]; intros H.
  - change ("" +:+ String c r) with (String c r). cbn. now rewrite Ascii.eqb_refl.
  - rewrite append_cons. cbn in H |- *.
    destruct (Ascii.eqb a c); [discriminate |]. now rewrite (IH H).
Qed.

Lemma split_parts_no_sep (c : ascii) (s : string) :
  Forall (fun x => count_char c x = 0%nat) (Py.split c s).
Proof.
  induction s as [|a s IH]; cbn; [repeat constructor |].
  destruct (Ascii.eqb a c) eqn:Hac; [constructor; [reflexivity | exact IH] |].
  destruct (Py.split c s) as [|h t]; [repeat constructor; cbn; now rewrite Hac |].
  inversion IH as [|? ? Hh Ht]; subst. constructor; [| exact Ht].
  cbn. now rewrite Hac.
Qed.

(** [sep.join] then [split(sep)] gives the list back, for names that hold
    no separator. *)
Lemma split_join (c : ascii) (l : list string) :
  l <> [] ->
  Forall (fun x => count_char c x = 0%nat) l ->
  Py.split c (Py.join (String c "") l) = l.
Proof.
  induction l as [|x l IH]; [congruence |]. intros _ Hall.
  inversion Hall as [|? ? Hx Hl]; subst.
  destruct l as [|y l]; [cbn; now apply split_no_sep |].
  change (Py.join (String c "") (x :: y :: l))
    with (x +:+ String c "" +:+ Py.join (String c "") (y :: l)).
  change (String c "" +:+ Py.join (String c "") (y :: l))
    with (String c (Py.join (String c "") (y :: l))).
  rewrite split_app_sep by exact Hx. f_equal. apply IH; [congruence | exact Hl].
Qed.

(** Text after the first separator does not reach [split(sep, 1)[0]]. *)
Lemma split1_head_app (c : ascii) (p q : string) :
  Py.split1_head c (p +:+ String c q) = Py.split1_head c p.
Proof.
  induction p as [|a p IH].
  - change ("" +:+ String c q) with (String c q). cbn. now rewrite Ascii.eqb_refl.
  - rewrite append_cons. cbn. destruct (Ascii.eqb a c); [reflexivity |].
    now rewrite IH.
Qed.

Lemma lstrip_char_not_started (c : ascii) (s : string) :
  Py.startswith (String c "") (Py.lstrip_char c s) = false.
Proof.
  induction s as [|a s IH]; [reflexivity |]. cbn [Py.lstrip_char].
  destruct (Ascii.eqb a c) eqn:Hac; [exact IH |].
  unfold Py.startswith.
  change (String.prefix (String c "") (String a s))
    with (if ascii_dec c a then String.prefix "" s else false).
  destruct (ascii_dec c a) as [<-|Hne]; [| reflexivity].
  now rewrite Ascii.eqb_refl in Hac.
Qed.

End Strings.

Section Normpath.

Lemma Forall_removelast {A} (P : A -> Prop) (l : list A) :
  Forall P l -> Forall P (List.removelast l).
Proof.
  induction 1 as [|x l Hx Hl IH]; cbn; [constructor |].
  destruct l; [constructor | constructor; assumption].
Qed.

Lemma norm_step_plain (i : nat) (nc : list string) (comp : string) :
  Forall plain_name nc ->
  count_char "/" comp = 0%nat ->
  Forall plain_name (norm_step i nc comp).
Proof.
  intros Hnc Hcomp. unfold norm_step.
  destruct (String.eqb comp "") eqn:He; [exact Hnc |].
  destruct (String.eqb comp ".") eqn:Hd; [exact Hnc |]. cbn [orb].
  apply String.eqb_neq in He, Hd.
  destruct (_ || _ || _).
  - apply Forall_app. split; [exact Hnc |]. repeat constructor; assumption.
  - destruct (negb _); [now apply Forall_removelast | exact Hnc].
Qed.

Lemma last_repeat_app (k : nat) (names : list string) :
  names <> [] ->
  List.last (List.repeat ".." k ++ names) "" = List.last names "".
Proof.
  intros Hne. induction k as [|k IH]; [reflexivity |].
  cbn [List.repeat app]. rewrite <- IH.
  destruct (List.repeat ".." k ++ names) eqn:E; [| reflexivity].
  apply app_eq_nil in E as [_ E]. congruence.
Qed.

Lemma last_not_dotdot (names : list string) :
  names <> [] ->
  Forall (fun x => String.eqb x ".." = false) names ->
  String.eqb (List.last names "") ".." = false.
Proof.
  intros Hne Hall. induction Hall as [|x l Hx Hl IH]; [congruence |].
  destruct l as [|y l]; [exact Hx |]. apply IH. congruence.
Qed.

Lemma norm_step_run (nc : list string) (comp : string) :
  dotdot_run nc -> dotdot_run (norm_step 0 nc comp).
Proof.
  intros (k & names & -> & Hnames). unfold norm_step.
  destruct (String.eqb comp "" || String.eqb comp "."); [now exists k, names |].
  destruct (String.eqb comp "..") eqn:Hdd; cbn [negb orb].
  - apply String.eqb_eq in Hdd. subst comp.
    destruct names as [|n names].
    + rewrite app_nil_r.
      replace (_ || _) with true.
      * exists (S k), []. rewrite app_nil_r. split; [| constructor].
        symmetry. apply List.repeat_cons.
      * destruct k as [|k]; [reflexivity |].
        cbn [List.repeat List.length Nat.eqb andb orb negb].
        symmetry. clear. induction k as [|k IH]; [reflexivity |].
        cbn [List.repeat]. exact IH.
    + assert (Hne : n :: names <> []) by congruence.
      rewrite last_repeat_app by exact Hne.
      rewrite (last_not_dotdot _ Hne Hnames).
      assert (Hlen : Nat.eqb (List.length (List.repeat ".." k ++ n :: names)) 0 = false).
      { rewrite length_app. cbn [List.length]. apply Nat.eqb_neq. lia. }
      rewrite Hlen. cbn [andb orb negb].
      exists k, (List.removelast (n :: names)). split.
      * apply List.removelast_app. exact Hne.
      * now apply Forall_removelast.
  - exists k, (names ++ [comp]). split; [now rewrite app_assoc |].
    apply Forall_app. split; [exact Hnames | repeat constructor; exact Hdd].
Qed.

Lemma fold_norm_step (comps nc : list string) :
  Forall (fun x => count_char "/" x = 0%nat) comps ->
  Forall plain_name nc -> dotdot_run nc ->
  Forall plain_name (fold_left (norm_step 0) comps nc)
  /\ dotdot_run (fold_left (norm_step 0) comps nc).
Proof.
  intros Hcomps. revert nc. induction Hcomps as [|c comps Hc _ IH]; intros nc Hp Hr.
  - split; assumption.
  - cbn [fold_left]. apply IH; [now apply norm_step_plain | now apply norm_step_run].
Qed.

Lemma plain_not_slash (a : ascii) (x : string) :
  count_char "/" (String a x) = 0%nat -> Ascii.eqb a "/" = false.
Proof. cbn. destruct (Ascii.eqb a "/"); [discriminate | reflexivity]. Qed.

Lemma join_head (x : string) (l : list string) :
  exists t, Py.join "/" (x :: l) = x +:+ t.
Proof.
  destruct l as [|y l]; [exists ""; cbn; now rewrite append_empty_r |].
  eexists. reflexivity.
Qed.

(** [Path] reads the names of a joined path back. *)
Lemma Path_join (nc : list string) :
  nc <> [] -> Forall plain_name nc -> Path (Py.join "/" nc) = MkPath "" nc.
Proof.
  intros Hne Hall. destruct nc as [|x l]; [congruence |].
  inversion Hall as [|? ? (Hx & _ & Hs) _]; subst.
  destruct x as [|a x]; [congruence |].
  destruct (join_head (String a x) l) as [t Ht].
  pose proof (plain_not_slash _ _ Hs) as Ha.
  unfold Path.
  assert (Hstart : Py.startswith "/" (Py.join "/" (String a x :: l)) = false).
  { rewrite Ht, append_cons, startswith_slash. exact Ha. }
  assert (Hstrip : Py.lstrip_char "/" (Py.join "/" (String a x :: l))
                   = Py.join "/" (String a x :: l)).
  { rewrite Ht, append_cons. cbn [Py.lstrip_char]. now rewrite Ha. }
  rewrite Hstart, Hstrip. f_equal.
  rewrite split_join; [| congruence |].
  - apply List.forallb_filter_id. apply List.forallb_forall.
    intros y Hy. rewrite List.Forall_forall in Hall. destruct (Hall y) as (H1 & H2 & _).
    { exact Hy. }
    apply String.eqb_neq in H1, H2. now rewrite H1, H2.
  - eapply List.Forall_impl; [| exact Hall]. now intros y (_ & _ & H).
Qed.

Lemma normpath_relative (s : string) :
  Py.startswith "/" s = false ->
  normpath s
  = match fold_left (norm_step 0) (Py.split "/" s) [] with
    | [] => "."
    | nc => Py.join "/" nc
    end.
Proof.
  intros Hrel. unfold normpath.
  destruct (String.eqb s "") eqn:Hs.
  - apply String.eqb_eq in Hs. subst s. reflexivity.
  - rewrite Hrel.
    change (fold_left _ (Py.split "/" s) [])
      with (fold_left (norm_step 0) (Py.split "/" s) []).
    change (Py.repeat_str "/" 0 +:+ ?p) with p.
    destruct (fold_norm_step (Py.split "/" s) [] (split_parts_no_sep _ _)) as [Hp _].
    { constructor. } { exists 0%nat, []. split; [reflexivity | constructor]. }
    destruct (fold_left (norm_step 0) (Py.split "/" s) []) as [|x l]; [reflexivity |].
    inversion Hp as [|? ? (Hx & _) _]; subst.
    destruct x as [|a x]; [congruence |].
    destruct (join_head (String a x) l) as [t Ht]. rewrite Ht, append_cons.
    reflexivity.
Qed.

(** What [_translate_path] returns: a relative path whose names are those
    the loop of [normpath] keeps. *)
Lemma translate_path_parts (url_path : string) :
  _translate_path url_path
  = MkPath ""
      (fold_left (norm_step 0)
         (Py.split "/" (Py.lstrip_char "/" (Py.split1_head "?" url_path))) []).
Proof.
  unfold _translate_path.
  rewrite normpath_relative by apply lstrip_char_not_started.
  destruct (fold_norm_step
              (Py.split "/" (Py.lstrip_char "/" (Py.split1_head "?" url_path))) []
              (split_parts_no_sep _ _)) as [Hp _].
  { constructor. } { exists 0%nat, []. split; [reflexivity | constructor]. }
  destruct (fold_left _ _ _) as [|x l] eqn:E; [reflexivity |].
  apply Path_join; [congruence | exact Hp].
Qed.

End Normpath.

Section MoreGet.

Variable env : environment.

Lemma public_dir_parts :
  PUBLIC_DIR env = MkPath "/" (project_dir env ++ ["public"]).
Proof. reflexivity. Qed.

(** What [do_GET] does, by what [stat] finds at the target. *)
Lemma do_GET_run (req : request) (w : world) :
  do_GET env req w
  = match stat (files w) (get_target env (path req)) with
    | Ok (File content) =>
        (Ok tt,
         World (files w) (names w)
           (wfile w ++
              [ StatusLine 200 "OK";
                Header "Server" (version_string env);
                Header "Date" (date_time_string env);
                Header "Access-Control-Allow-Origin" "*";
                Header "Cache-Control" "no-cache";
                Header "Content-Type" (_guess_type (get_target env (path req)));
                EndHeaders;
                Body content ]))
    | Ok Dir => send_error env NOT_FOUND "File not found" w
    | Raise e =>
        if ignore_error e then send_error env NOT_FOUND "File not found" w
        else (Raise e, w)
    end.
Proof.
  unfold do_GET. unfold bind at 1, exists_ at 1, bind at 1, get_files at 1.
  destruct (stat (files w) (get_target env (path req))) as [[content|]|e] eqn:Hstat.
  - unfold ret at 1. cbn [negb].
    unfold bind at 1. unfold bind at 1, is_file, bind at 1, get_files, ret.
    rewrite Hstat. cbn [negb].
    unfold send_response, _send_common_headers, send_header, end_headers,
      wfile_write, emit, read_bytes, bind, get_files, ret.
    cbn [files names wfile]. rewrite Hstat.
    cbn [files names wfile status_value status_phrase].
    rewrite <- !app_assoc. reflexivity.
  - unfold ret at 1. cbn [negb].
    unfold bind at 1. unfold bind at 1, is_file, bind at 1, get_files, ret.
    rewrite Hstat. reflexivity.
  - destruct (ignore_error e); reflexivity.
Qed.

(** X1: [do_GET] never changes the file system, and what [stat] finds at
    the target decides the rest.  A regular file: one whole response, 200,
    with the file's bytes.  A directory, nothing, a file where a directory
    is needed, or a path with a NUL in it: one whole response, 404, with
    the error page only.  A path the kernel refuses as too long: the
    [OSError] goes up through the handler and nothing is written; this is
    the case of every path of [PATH_MAX] bytes or more that holds no
    NUL. *)
Theorem X1_get_outcomes (req : request) (fs : filesystem) (cands : list string) :
  files (snd (serve (do_GET env req) fs cands)) = fs
  /\ match stat fs (get_target env (path req)) with
     | Ok (File content) =>
         fst (serve (do_GET env req) fs cands) = Ok tt
         /\ complete_response (wfile (snd (serve (do_GET env req) fs cands))) = true
         /\ response_status (wfile (snd (serve (do_GET env req) fs cands)))
            = Some 200
         /\ response_body (wfile (snd (serve (do_GET env req) fs cands)))
            = content
     | Ok Dir | Raise FileNotFoundError | Raise NotADirectoryError
     | Raise ValueError =>
         fst (serve (do_GET env req) fs cands) = Ok tt
         /\ complete_response (wfile (snd (serve (do_GET env req) fs cands))) = true
         /\ response_status (wfile (snd (serve (do_GET env req) fs cands)))
            = Some 404
         /\ response_body (wfile (snd (serve (do_GET env req) fs cands)))
            = error_page env NOT_FOUND "File not found"
     | Raise e =>
         e = OSError ENAMETOOLONG
         /\ serve (do_GET env req) fs cands = (Raise e, World fs cands [])
     end
  /\ (embedded_null (parts (get_target env (path req))) = false ->
      PATH_MAX <= path_bytes (parts (get_target env (path req))) ->
      serve (do_GET env req) fs cands
      = (Raise (OSError ENAMETOOLONG), World fs cands [])).
Proof.
  unfold serve. rewrite do_GET_run. cbn [files names wfile].
  split; [| split].
  - destruct (stat fs (get_target env (path req))) as [[content|]|e];
      [reflexivity | now rewrite send_error_run |].
    destruct (ignore_error e); [now rewrite send_error_run | reflexivity].
  - destruct (stat fs (get_target env (path req))) as [[content|]|e] eqn:Hstat.
    + cbn. rewrite append_empty_r. repeat split; reflexivity.
    + rewrite send_error_run. cbn. rewrite append_empty_r.
      repeat split; reflexivity.
    + apply stat_errors in Hstat as [-> | [-> | [-> | ->]]];
        cbn [ignore_error]; rewrite ?send_error_run; cbn;
        rewrite ?append_empty_r; repeat split; reflexivity.
  - intros Hnul Hlong. unfold stat, resolve, refused. rewrite Hnul.
    apply Z.leb_le in Hlong. rewrite Hlong. reflexivity.
Qed.

(** X2: the query string and whatever else follows the first "?" never
    change the file that is looked up, so the path with and without it get
    the same answer (the path "/" apart, whose bare form is the index
    page). *)
Theorem X2_query_string_is_ignored (p q : string) (hs1 hs2 : list (string * string))
    (body1 body2 : string) (fs : filesystem) (cands : list string) :
  p <> "/" -> p <> "" ->
  _translate_path (p +:+ String "?" q) = _translate_path p
  /\ serve (do_GET env (Request (p +:+ String "?" q) hs1 body1)) fs cands
     = serve (do_GET env (Request p hs2 body2)) fs cands.
Proof.
  intros Hslash Hempty.
  assert (Htr : _translate_path (p +:+ String "?" q) = _translate_path p).
  { unfold _translate_path. now rewrite split1_head_app. }
  split; [exact Htr |].
  unfold serve. rewrite !do_GET_run. cbn [path].
  assert (Htarget : get_target env (p +:+ String "?" q) = get_target env p).
  { unfold get_target. rewrite Htr.
    apply String.eqb_neq in Hslash, Hempty. rewrite Hslash, Hempty.
    destruct p as [|a p]; [now rewrite String.eqb_refl in Hempty |].
    rewrite append_cons.
    destruct p as [|b p].
    - change (String a ("" +:+ String "?" q)) with (String a (String "?" q)).
      cbn [String.eqb]. destruct (Ascii.eqb a "/"); reflexivity.
    - rewrite append_cons. cbn [String.eqb].
      destruct (Ascii.eqb a "/"); reflexivity. }
  now rewrite Htarget.
Qed.

(** X3: the front page with a query string is not the front page: the
    target of /?q is the public root itself, and the answer is 404 when
    that is a directory. *)
Theorem X3_index_with_query_is_404 (q : string) (hs : list (string * string))
    (body : string) (fs : filesystem) (cands : list string) :
  stat fs (PUBLIC_DIR env) = Ok Dir ->
  get_target env ("/?" +:+ q) = PUBLIC_DIR env
  /\ response_status
       (wfile (snd (serve (do_GET env (Request ("/?" +:+ q) hs body)) fs cands)))
     = Some 404.
Proof.
  intros Hdir.
  assert (Htarget : get_target env ("/?" +:+ q) = PUBLIC_DIR env).
  { unfold get_target, _translate_path.
    change ("/?" +:+ q) with (String "/" (String "?" q)).
    cbn [String.eqb Ascii.eqb Bool.eqb orb Py.split1_head Py.lstrip_char].
    change (normpath "") with ".". change (Path ".") with (MkPath "" []).
    rewrite public_dir_parts. unfold truediv. cbn. now rewrite app_nil_r. }
  split; [exact Htarget |].
  unfold serve. rewrite do_GET_run. cbn [path files]. rewrite Htarget, Hdir.
  rewrite send_error_run. reflexivity.
Qed.

Lemma translate_path_shape (url_path : string) :
  exists k names,
    _translate_path url_path = MkPath "" (List.repeat ".." k ++ names)
    /\ Forall (fun x => plain_name x /\ String.eqb x ".." = false) names.
Proof.
  rewrite translate_path_parts.
  destruct (fold_norm_step
              (Py.split "/" (Py.lstrip_char "/" (Py.split1_head "?" url_path))) []
              (split_parts_no_sep _ _)) as [Hp (k & names & Hrun & Hnames)].
  { constructor. } { exists 0%nat, []. split; [reflexivity | constructor]. }
  exists k, names. rewrite Hrun. split; [reflexivity |].
  rewrite Hrun in Hp. apply Forall_app in Hp as [_ Hp].
  rewrite List.Forall_forall in Hp, Hnames. apply List.Forall_forall.
  intros x Hx. split; [apply Hp | apply Hnames]; exact Hx.
Qed.

(** X4: what [_translate_path] returns is relative, holds no empty name,
    no "." and no separator inside a name, and ".." only as a leading run:
    normalising removes every ".." that follows a name and keeps those in
    front. *)
Theorem X4_translated_path_normal_form (url_path : string) :
  exists k names,
    _translate_path url_path = MkPath "" (List.repeat ".." k ++ names)
    /\ Forall (fun x => plain_name x /\ String.eqb x ".." = false) names.
Proof. apply translate_path_shape. Qed.

(** X5: the guard works for every request whose normalised path does not
    begin with "..": when such a request is answered 200, the file that was
    sent lies under the place the public root resolves to. *)
Theorem X5_without_leading_dotdot_under_root (req : request) (fs : filesystem)
    (cands : list string) :
  hd_error (parts (_translate_path (path req))) <> Some ".." ->
  response_status (wfile (snd (serve (do_GET env req) fs cands))) = Some 200 ->
  exists root_loc loc content,
    resolve fs (PUBLIC_DIR env) = Ok root_loc
    /\ root_loc `prefix_of` loc
    /\ entry_at fs loc = Some (File content)
    /\ response_body (wfile (snd (serve (do_GET env req) fs cands))) = content.
Proof.
  intros Hhd. unfold serve. rewrite do_GET_run. cbn [files wfile names].
  destruct (stat fs (get_target env (path req))) as [[content|]|e] eqn:Hstat;
    try destruct (ignore_error e); rewrite ?send_error_run; try discriminate.
  intros _. unfold stat in Hstat.
  destruct (resolve fs (get_target env (path req))) as [loc|] eqn:Hres;
    [| discriminate].
  destruct (entry_at fs loc) as [en|] eqn:Hloc; [| discriminate].
  injection Hstat as ->.
  assert (Hrel : exists rel,
             parts (get_target env (path req)) = parts (PUBLIC_DIR env) ++ rel
             /\ Forall (fun c => String.eqb c ".." = false) rel).
  { unfold get_target.
    destruct (String.eqb (path req) "/" || String.eqb (path req) "").
    - exists ["index.html"]. split; [reflexivity | repeat constructor].
    - destruct (translate_path_shape (path req))
        as (k & names & Htr & Hnames).
      rewrite Htr in Hhd |- *. exists names.
      destruct k as [|k]; [| cbn in Hhd; congruence].
      split; [reflexivity |].
      eapply List.Forall_impl; [| exact Hnames]. now intros x [_ H]. }
  destruct Hrel as (rel & Hparts & Hrel).
  apply resolve_ok in Hres as [Hok Hres]. rewrite Hparts in Hok.
  rewrite Hparts, walk_app in Hres.
  destruct (walk fs [] (parts (PUBLIC_DIR env))) as [root_loc|] eqn:Hroot;
    [| discriminate].
  exists root_loc, loc, content.
  split; [apply resolve_ok; eauto using refused_app |].
  split; [eapply walk_descends; eassumption |].
  split; [exact Hloc |]. cbn. apply append_empty_r.
Qed.

End MoreGet.

Section MorePost.

Variable env : environment.

(** X6: [_guess_type] compares the suffix as it is written: a file whose
    extension holds a capital letter is sent as application/octet-stream. *)
Theorem X6_capital_extension_is_octet_stream (p : PurePath) :
  Py.lower (suffix p) <> suffix p ->
  _guess_type p = "application/octet-stream".
Proof.
  unfold _guess_type. generalize (suffix p) as s. intros s Hcase.
  repeat match goal with
         | |- context [String.eqb s ?k] =>
             destruct (String.eqb_spec s k) as [->|_];
             [exfalso; apply Hcase; reflexivity |]
         end.
  reflexivity.
Qed.

Lemma unknown_endpoint_run (veo : collaborator) (req : request) (w : world) :
  path req <> "/api/generate" ->
  do_POST_with env veo req w = send_error env NOT_FOUND "Unknown endpoint" w.
Proof.
  intros Hpath. unfold do_POST_with.
  apply String.eqb_neq in Hpath. now rewrite Hpath.
Qed.

Lemma wrong_content_type_run (veo : collaborator) (req : request) (w : world) :
  path req = "/api/generate" ->
  content_type req <> "multipart/form-data" ->
  do_POST_with env veo req w
  = send_error env BAD_REQUEST "Expected multipart/form-data" w.
Proof.
  intros Hpath Hct. unfold do_POST_with. rewrite Hpath.
  change (String.eqb "/api/generate" "/api/generate") with true.
  apply String.eqb_neq in Hct. now rewrite Hct.
Qed.

(** X7: the head checks come in the order path, Content-Type, length, and
    the first that fails decides: any path other than /api/generate is
    answered 404 whatever the headers say, and on the right path any
    Content-Type other than multipart/form-data (compared as written, an
    absent header too) is answered 400 whatever length is declared; in
    both cases the collaborator is not called and no file is touched. *)
Theorem X7_path_then_content_type (veo : collaborator) (req : request)
    (fs : filesystem) (cands : list string) :
  (path req <> "/api/generate" ->
   serve (do_POST_with env veo req) fs cands
   = serve (send_error env NOT_FOUND "Unknown endpoint") fs cands)
  /\ (path req = "/api/generate" ->
      content_type req <> "multipart/form-data" ->
      serve (do_POST_with env veo req) fs cands
      = serve (send_error env BAD_REQUEST "Expected multipart/form-data") fs cands)
  /\ (forall code message,
        response_status (wfile (snd (serve (send_error env code message) fs cands)))
        = Some (status_value code)
        /\ files (snd (serve (send_error env code message) fs cands)) = fs).
Proof.
  unfold serve. split; [| split].
  - intros H. now apply unknown_endpoint_run.
  - intros H1 H2. now apply wrong_content_type_run.
  - intros code message. rewrite send_error_run. split; reflexivity.
Qed.

Lemma int_of_str_raises (s : string) (e : exn) :
  Py.int_of_str s = Raise e -> e = ValueError.
Proof.
  unfold Py.int_of_str.
  destruct (match Py.skip_int_space s with
            | String "+" r => (1, r)
            | String "-" r => (-1, r)
            | _ => (1, Py.skip_int_space s)
            end) as [sign s'].
  destruct (Py.startswith "_" s'); [congruence |].
  destruct (Py.scan_digits s' zero 0 0%N) as [[[[v digits] prev] rest]|];
    [| congruence].
  repeat match goal with
         | |- context [if ?b then _ else _] => destruct b
         end; congruence.
Qed.

(** X8: a Content-Length that [int] does not read makes the handler raise
    [ValueError] before anything is written: no status line, no file, and
    the multipart parser and the collaborator are not reached. *)
Theorem X8_unreadable_length_raises (veo : collaborator) (req : request) (e : exn)
    (fs : filesystem) (cands : list string) :
  path req = "/api/generate" ->
  content_type req = "multipart/form-data" ->
  declared_length req = Raise e ->
  e = ValueError
  /\ serve (do_POST_with env veo req) fs cands = (Raise ValueError, World fs cands []).
Proof.
  intros Hpath Hct Hlen.
  assert (He : e = ValueError).
  { unfold declared_length in Hlen.
    destruct (headers_get (headers req) "Content-Length"); [| discriminate].
    now apply int_of_str_raises in Hlen. }
  subst e. split; [reflexivity |].
  unfold serve, do_POST_with. rewrite Hpath, Hct.
  change (String.eqb "/api/generate" "/api/generate") with true.
  change (String.eqb "multipart/form-data" "multipart/form-data") with true.
  cbn [negb]. unfold bind, lift. now rewrite Hlen.
Qed.

Lemma filter_two_contains (form : list part) (key : string) (f g : part)
    (rest : list part) :
  List.filter (named key) form = f :: g :: rest ->
  contains form key = true /\ getitem form key = Ok (Many (f :: g :: rest)).
Proof.
  intros Hf. split.
  - unfold contains. apply List.existsb_exists. exists f.
    assert (Hin : In f (List.filter (named key) form)) by (rewrite Hf; now left).
    apply List.filter_In in Hin. exact Hin.
  - unfold getitem. now rewrite Hf.
Qed.

(** X9: a form with two or more parts named model is answered 400, like a
    form without one, whatever their file names are; so is a model part
    that is a plain field without a file name. *)
Theorem X9_twin_or_plain_model_is_400 (veo : collaborator) (req : request) (n : Z)
    (form : list part) (fs : filesystem) (cands : list string) :
  path req = "/api/generate" ->
  content_type req = "multipart/form-data" ->
  declared_length req = Ok n ->
  n <= MAX_UPLOAD ->
  FieldStorage env req = Ok form ->
  ((exists f g rest, List.filter (named "model") form = f :: g :: rest)
   \/ (exists f, getitem form "model" = Ok (One f) /\ filename f = None)) ->
  serve (do_POST_with env veo req) fs cands
  = serve (send_error env BAD_REQUEST "Missing model file upload") fs cands.
Proof.
  intros Hpath Hct Hlen Hn Hform Hcase. unfold serve.
  rewrite (head_checks_pass env _ _ n) by assumption.
  unfold bind at 1, lift at 1. rewrite Hform. unfold handle_form, bind, lift, ret.
  destruct Hcase as [(f & g & rest & Hf) | (f & Hitem & Hname)].
  - destruct (filter_two_contains _ _ _ _ _ Hf) as [Hc Hg]. rewrite Hc, Hg.
    reflexivity.
  - rewrite (getitem_contains _ _ _ Hitem), Hitem.
    cbn [getattr_filename]. rewrite Hname. reflexivity.
Qed.

End MorePost.

Section Scratch.

Variable env : environment.

Lemma stat_dir_inv (fs : filesystem) (p : PurePath) :
  stat fs p = Ok Dir ->
  exists d, resolve fs p = Ok d /\ entry_at fs d = Some Dir.
Proof.
  unfold stat. destruct (resolve fs p) as [d|]; [| discriminate].
  destruct (entry_at fs d) as [[|]|] eqn:E; try discriminate. eauto.
Qed.

Lemma child_parts (dir : PurePath) (leaf : string) :
  parts (dir // MkPath "" [leaf]) = parts dir ++ [leaf].
Proof. reflexivity. Qed.

Lemma refused_cases (comps : list string) (e : exn) :
  refused comps = Some e -> e = ValueError \/ e = OSError ENAMETOOLONG.
Proof.
  unfold refused. destruct (embedded_null comps); [intros [= <-]; auto |].
  destruct (PATH_MAX <=? path_bytes comps); [intros [= <-]; auto | discriminate].
Qed.

(** What [stat] finds at a name in a directory. *)
Lemma stat_child (fs : filesystem) (dir : PurePath) (d : list string)
    (leaf : string) :
  resolve fs dir = Ok d ->
  entry_at fs d = Some Dir ->
  String.eqb leaf ".." = false ->
  stat fs (dir // MkPath "" [leaf])
  = match refused (parts dir ++ [leaf]) with
    | Some e => Raise e
    | None =>
        if NAME_MAX <? fs_bytes leaf then Raise (OSError ENAMETOOLONG)
        else match entry_at fs (d ++ [leaf]) with
             | Some en => Ok en
             | None => Raise FileNotFoundError
             end
    end.
Proof.
  intros Hres Hd Hleaf. apply resolve_ok in Hres as [_ Hwalk].
  unfold stat, resolve. rewrite child_parts.
  destruct (refused (parts dir ++ [leaf])); [reflexivity |].
  rewrite walk_app, Hwalk. cbn [walk]. rewrite Hd, Hleaf.
  destruct (NAME_MAX <? fs_bytes leaf); [reflexivity |].
  destruct (entry_at fs (d ++ [leaf])) as [en|] eqn:E; [now rewrite E | reflexivity].
Qed.

(** A name in a directory that [stat] finds, or finds missing, is one that
    [os.open] can look up. *)
Lemma stat_child_known (fs : filesystem) (dir : PurePath) (d : list string)
    (leaf : string) (found : option entry) :
  resolve fs dir = Ok d ->
  entry_at fs d = Some Dir ->
  String.eqb leaf ".." = false ->
  stat fs (dir // MkPath "" [leaf])
  = match found with Some en => Ok en | None => Raise FileNotFoundError end ->
  refused (parts dir ++ [leaf]) = None
  /\ (NAME_MAX <? fs_bytes leaf) = false
  /\ entry_at fs (d ++ [leaf]) = found.
Proof.
  intros Hres Hd Hleaf. rewrite (stat_child _ _ _ _ Hres Hd Hleaf).
  destruct (refused (parts dir ++ [leaf])) as [e|] eqn:Href.
  { apply refused_cases in Href as [-> | ->]; destruct found; discriminate. }
  destruct (NAME_MAX <? fs_bytes leaf); [destruct found; discriminate |].
  destruct (entry_at fs (d ++ [leaf])); destruct found; try discriminate;
    intros H; try (injection H as ->); auto.
Qed.

(** [mkstemp] succeeds when the directory is one and, after candidate names
    that are taken, one is free. *)
Lemma mkstemp_inner_progress (sfx : string) (taken : list string) (n : string)
    (rest : list string) (w : world) :
  stat (files w) (UPLOAD_DIR env) = Ok Dir ->
  Forall (fun c => exists en,
            stat (files w) (UPLOAD_DIR env // MkPath "" ["tmp" +:+ c +:+ sfx])
            = Ok en)
    taken ->
  stat (files w) (UPLOAD_DIR env // MkPath "" ["tmp" +:+ n +:+ sfx])
  = Raise FileNotFoundError ->
  exists fd tp w1,
    mkstemp_inner (UPLOAD_DIR env) "tmp" sfx (taken ++ n :: rest) w
    = (Ok (fd, tp), w1).
Proof.
  intros Hdir Htaken Hfree.
  destruct (stat_dir_inv _ _ Hdir) as (d & Hres & Hd).
  revert w Hdir Hfree Hres Hd Htaken.
  induction taken as [|c taken IH]; intros w Hdir Hfree Hres Hd Htaken.
  - destruct (stat_child_known _ _ _ _ None Hres Hd (tmp_leaf_not_dotdot n sfx) Hfree)
      as (Href & Hname & Hnone).
    cbn [app mkstemp_inner].
    unfold drop_name, os_open_excl, get_files, put_files, ret, raise, bind.
    cbn [files names wfile]. rewrite Href, Hres, Hd, Hname, Hnone. eauto.
  - inversion Htaken as [|? ? [en Hc] Htaken']; subst.
    destruct (stat_child_known _ _ _ _ (Some en) Hres Hd (tmp_leaf_not_dotdot c sfx) Hc)
      as (Href & Hname & Hsome).
    cbn [app mkstemp_inner].
    unfold drop_name, os_open_excl, get_files, put_files, ret, raise, bind.
    cbn [files names wfile]. rewrite Href, Hres, Hd, Hname, Hsome.
    apply IH; assumption.
Qed.

Lemma mkstemp_progress (sfx : string) (taken : list string) (n : string)
    (rest : list string) (fs : filesystem) (out : list chunk) :
  stat fs (UPLOAD_DIR env) = Ok Dir ->
  Forall (fun c => exists en,
            stat fs (UPLOAD_DIR env // MkPath "" ["tmp" +:+ c +:+ sfx]) = Ok en)
    taken ->
  stat fs (UPLOAD_DIR env // MkPath "" ["tmp" +:+ n +:+ sfx])
  = Raise FileNotFoundError ->
  exists fd tp w1,
    mkstemp sfx (UPLOAD_DIR env) (World fs (taken ++ n :: rest) out)
    = (Ok (fd, tp), w1).
Proof.
  intros Hdir Htaken Hfree. unfold mkstemp. cbn [names].
  now apply mkstemp_inner_progress.
Qed.

Lemma dumps_stub_text (tp : PurePath) (prompt : option pyval) :
  (exists s, prompt_or_default prompt = PyStr s) ->
  exists body, Json.dumps (generate_video_using_veo tp prompt) = Ok body.
Proof.
  intros [s Hs]. unfold generate_video_using_veo. rewrite Hs.
  eexists. reflexivity.
Qed.

(** X10: with a scratch directory that is a directory and, after candidate
    names that are taken, one that is free, an accepted upload that is
    stored and whose prompt is absent, text, or empty is always answered:
    200, Content-Type application/json, a Content-Length equal to the
    length of the body written, one whole response, and the file system as
    it was. *)
Theorem X10_stored_upload_is_answered (req : request) (form : list part)
    (f : part) (fname sfx : string) (fs : filesystem)
    (taken : list string) (n : string) (rest : list string) :
  accepted env req form f fname sfx ->
  stored env f ->
  stat fs (UPLOAD_DIR env) = Ok Dir ->
  Forall (fun c => exists en,
            stat fs (UPLOAD_DIR env // MkPath "" ["tmp" +:+ c +:+ sfx]) = Ok en)
    taken ->
  stat fs (UPLOAD_DIR env // MkPath "" ["tmp" +:+ n +:+ sfx])
  = Raise FileNotFoundError ->
  (exists s, prompt_or_default (prompt_of form) = PyStr s) ->
  fst (serve (do_POST env req) fs (taken ++ n :: rest)) = Ok tt
  /\ response_status
       (wfile (snd (serve (do_POST env req) fs (taken ++ n :: rest)))) = Some 200
  /\ complete_response
       (wfile (snd (serve (do_POST env req) fs (taken ++ n :: rest)))) = true
  /\ In ("Content-Type", "application/json")
        (response_headers
           (wfile (snd (serve (do_POST env req) fs (taken ++ n :: rest)))))
  /\ In ("Content-Length",
         Py.str_of_nat
           (String.length
              (response_body
                 (wfile (snd (serve (do_POST env req) fs (taken ++ n :: rest)))))))
        (response_headers
           (wfile (snd (serve (do_POST env req) fs (taken ++ n :: rest)))))
  /\ files (snd (serve (do_POST env req) fs (taken ++ n :: rest))) = fs.
Proof.
  intros Hacc Hst Hdir Htaken Hfree Hprompt.
  destruct (mkstemp_progress sfx taken n rest fs [] Hdir Htaken Hfree)
    as (fd & tp & w1 & Hmk).
  unfold serve, do_POST. rewrite (accepted_dispatch env _ _ _ _ _ _ _ Hacc).
  rewrite (store_and_dispatch_stub env _ _ _ _ _ _ _ Hst Hmk).
  destruct (dumps_stub_text tp (prompt_of form) Hprompt) as [body Hbody].
  rewrite Hbody. cbn. rewrite append_empty_r. repeat split; auto 10.
Qed.

(** X11: a prompt part that carries a file name has a bytes value; when it
    is not empty the payload cannot be serialised: the handler raises
    [TypeError] after the temporary file is removed and before anything is
    written. *)
Theorem X11_bytes_prompt_raises_type_error (req : request) (form : list part)
    (f : part) (fname sfx : string) (fs : filesystem) (cands : list string)
    (fd : list string) (tp : PurePath) (w1 : world) (c : ascii) (b : string) :
  accepted env req form f fname sfx ->
  stored env f ->
  prompt_of form = Some (PyBytes (String c b)) ->
  mkstemp sfx (UPLOAD_DIR env) (World fs cands []) = (Ok (fd, tp), w1) ->
  serve (do_POST env req) fs cands = (Raise TypeError, World fs (names w1) []).
Proof.
  intros Hacc Hst Hprompt Hmk. unfold serve, do_POST.
  rewrite (accepted_dispatch env _ _ _ _ _ _ _ Hacc).
  rewrite (store_and_dispatch_stub env _ _ _ _ _ _ _ Hst Hmk), Hprompt.
  reflexivity.
Qed.

(** X12: what the collaborator finds at the path it is given is a regular
    file holding exactly the uploaded bytes: a collaborator that reads the
    file reports the upload, and the file is gone afterwards. *)
Theorem X12_collaborator_reads_the_upload (req : request) (form : list part)
    (f : part) (fname sfx : string) (fs : filesystem) (cands : list string)
    (fd : list string) (tp : PurePath) (w1 : world) :
  accepted env req form f fname sfx ->
  stored env f ->
  mkstemp sfx (UPLOAD_DIR env) (World fs cands []) = (Ok (fd, tp), w1) ->
  stat (<[fd := File (data f)]> fs) tp = Ok (File (data f))
  /\ response_body (wfile (snd (serve (do_POST_with env reading_veo req) fs cands)))
     = Json.object [("read", data f)]
  /\ files (snd (serve (do_POST_with env reading_veo req) fs cands)) = fs.
Proof.
  intros Hacc Hst Hmk.
  destruct (temp_file_written env _ (data f) _ _ _ _ Hmk)
    as (Hnone & Hout & Hins & Hres & Hent).
  cbn [files wfile] in *.
  assert (Hstat : stat (<[fd := File (data f)]> fs) tp = Ok (File (data f))).
  { unfold stat. now rewrite Hres, Hent. }
  split; [exact Hstat |].
  assert (Hrun : do_POST_with env reading_veo req (World fs cands [])
                 = (Ok tt,
                    World fs (names w1)
                      [ StatusLine 200 "OK";
                        Header "Server" (version_string env);
                        Header "Date" (date_time_string env);
                        Header "Access-Control-Allow-Origin" "*";
                        Header "Cache-Control" "no-cache";
                        Header "Content-Type" "application/json";
                        Header "Content-Length"
                          (Py.str_of_nat
                             (String.length (Json.object [("read", data f)])));
                        EndHeaders;
                        Body (Json.object [("read", data f)]) ])).
  { rewrite (accepted_dispatch env _ _ _ _ _ _ _ Hacc).
    unfold store_and_dispatch. unfold bind at 1. rewrite Hmk.
    unfold bind at 1. rewrite (copy_stored env _ _ _ Hst).
    cbn [files names wfile]. rewrite Hins.
    unfold bind at 1, try_finally, reading_veo, read_bytes, unlink_missing_ok.
    unfold bind, get_files, put_files, ret, lift. cbn [files names wfile].
    rewrite Hstat. cbn [files names wfile]. rewrite Hres, Hent.
    cbn [files names wfile].
    rewrite delete_insert_id by exact Hnone.
    unfold send_response, _send_common_headers, send_header, end_headers,
      wfile_write, emit, bind. cbn [files names wfile]. rewrite Hout.
    reflexivity. }
  unfold serve. rewrite Hrun. cbn. rewrite append_empty_r. split; reflexivity.
Qed.

(** X16: when the collaborator raises, the exception goes up through the
    handler as it is: the temporary file is removed first, and no status
    line, header or body is written, not even an error response. *)
Theorem X16_collaborator_failure_goes_up (veo : collaborator) (req : request)
    (form : list part) (f : part) (fname sfx : string) (fs : filesystem)
    (cands : list string) (fd : list string) (tp : PurePath) (w1 : world)
    (e : exn) :
  accepted env req form f fname sfx ->
  stored env f ->
  mkstemp sfx (UPLOAD_DIR env) (World fs cands []) = (Ok (fd, tp), w1) ->
  veo tp (prompt_of form) (World (<[fd := File (data f)]> fs) (names w1) [])
  = (Raise e, World (<[fd := File (data f)]> fs) (names w1) []) ->
  serve (do_POST_with env veo req) fs cands = (Raise e, World fs (names w1) []).
Proof.
  intros Hacc Hst Hmk Hveo.
  destruct (temp_file_written env _ (data f) _ _ _ _ Hmk)
    as (Hnone & Hout & Hins & Hres & Hent).
  cbn [files wfile] in *.
  unfold serve. rewrite (accepted_dispatch env _ _ _ _ _ _ _ Hacc).
  unfold store_and_dispatch. unfold bind at 1. rewrite Hmk.
  unfold bind at 1. rewrite (copy_stored env _ _ _ Hst).
  cbn [files names wfile]. rewrite Hins, Hout.
  unfold bind at 1, try_finally. rewrite Hveo.
  unfold unlink_missing_ok, bind, get_files, put_files, ret.
  cbn [files names wfile]. rewrite Hres, Hent. cbn [files names wfile].
  now rewrite delete_insert_id by exact Hnone.
Qed.

(** X13: when the scratch directory does not exist, an accepted upload
    raises at the first candidate name: [FileNotFoundError], unless the
    path of the temporary file is itself refused, in which case that error
    goes up.  Nothing is written, the collaborator is not called, no file
    is created. *)
Theorem X13_missing_scratch_directory (veo : collaborator) (req : request)
    (form : list part) (f : part) (fname sfx : string) (fs : filesystem)
    (n : string) (rest : list string) :
  accepted env req form f fname sfx ->
  stat fs (UPLOAD_DIR env) = Raise FileNotFoundError ->
  serve (do_POST_with env veo req) fs (n :: rest)
  = (Raise (default FileNotFoundError
              (refused (parts (UPLOAD_DIR env) ++ ["tmp" +:+ n +:+ sfx]))),
     World fs rest []).
Proof.
  intros Hacc Hstat. unfold serve.
  rewrite (accepted_dispatch env _ _ _ _ _ _ _ Hacc).
  unfold store_and_dispatch. unfold bind at 1. unfold mkstemp.
  cbn [names mkstemp_inner].
  unfold drop_name, os_open_excl, get_files, put_files, ret, raise, bind.
  cbn [files names wfile List.tl].
  destruct (refused (parts (UPLOAD_DIR env) ++ ["tmp" +:+ n +:+ sfx]))
    as [e|] eqn:Href.
  { apply refused_cases in Href as [-> | ->]; reflexivity. }
  unfold stat in Hstat.
  destruct (resolve fs (UPLOAD_DIR env)) as [d|e].
  - destruct (entry_at fs d) as [en|]; [discriminate |]. reflexivity.
  - injection Hstat as ->. reflexivity.
Qed.

End Scratch.

Section Invariant.

Variable env : environment.

Lemma settled_error (fs : filesystem) (cands : list string) (code : HTTPStatus)
    (message : string) :
  In (status_value code) post_statuses ->
  settled fs (send_error env code message (World fs cands [])).
Proof.
  intros Hcode. rewrite send_error_run. split; [reflexivity |]. right.
  split; [reflexivity |]. split; [reflexivity |].
  exists (status_value code). split; [reflexivity | exact Hcode].
Qed.

Lemma settled_raise (fs : filesystem) (cands : list string) (e : exn) :
  settled fs (Raise e, World fs cands []).
Proof. split; [reflexivity |]. left. eauto. Qed.

Lemma settled_dispatch (f : part) (sfx : string) (prompt : option pyval)
    (fs : filesystem) (cands : list string) :
  stored env f ->
  settled fs (store_and_dispatch env veo_stub (file f) sfx prompt (World fs cands [])).
Proof.
  intros Hst.
  destruct (mkstemp sfx (UPLOAD_DIR env) (World fs cands []))
    as [[[fd tp]|e] w1] eqn:Hmk.
  - rewrite (store_and_dispatch_stub env _ _ _ _ _ _ _ Hst Hmk). cbn [files wfile app].
    destruct (Json.dumps _) as [body|e]; [| apply settled_raise].
    split; [reflexivity |]. right. split; [reflexivity |]. split; [reflexivity |].
    exists 200. split; [reflexivity |]. cbn. auto.
  - unfold store_and_dispatch, bind. rewrite Hmk.
    apply mkstemp_inner_raise in Hmk as [Hfiles Hout]. cbn [files wfile] in *.
    destruct w1 as [fs1 names1 out1]. cbn in Hfiles, Hout. subst.
    apply settled_raise.
Qed.

(** A run of [do_POST] answers with an error response, or raises before
    anything is done, or is that of a request that passes validation. *)
Lemma post_cases (veo : collaborator) (req : request) (w : world) :
  (exists code message,
      In (status_value code) post_statuses
      /\ do_POST_with env veo req w = send_error env code message w)
  \/ (exists e, do_POST_with env veo req w = (Raise e, w))
  \/ (exists form f fname sfx, accepted env req form f fname sfx).
Proof.
  remember (do_POST_with env veo req w) as run eqn:Hrun.
  unfold do_POST_with in Hrun.
  destruct (String.eqb_spec (path req) "/api/generate") as [Hpath|_];
    cbn [negb] in Hrun;
    [| left; eexists _, _; split; [| exact Hrun]; cbn; auto].
  destruct (String.eqb_spec (content_type req) "multipart/form-data") as [Hct|_];
    cbn [negb] in Hrun; [| left; eexists _, _; split; [| exact Hrun]; cbn; auto].
  unfold bind at 1, lift at 1 in Hrun.
  destruct (declared_length req) as [n|e] eqn:Hlen; [| right; left; eauto].
  cbv beta iota in Hrun.
  destruct (Z.gtb_spec n MAX_UPLOAD) as [_|Hn];
    [left; eexists _, _; split; [| exact Hrun]; cbn; auto 10 |].
  unfold bind at 1, lift at 1 in Hrun.
  destruct (FieldStorage env req) as [form|e] eqn:Hform; [| right; left; eauto].
  cbv beta iota in Hrun. unfold handle_form, bind, lift, ret in Hrun.
  destruct (contains form "model");
    [| left; eexists _, _; split; [| exact Hrun]; cbn; auto].
  destruct (getitem form "model") as [[f|l]|e] eqn:Hitem;
    cbn [getattr_filename Py.truthy] in Hrun.
  - destruct (filename f) as [fname|] eqn:Hf; cbn [Py.truthy negb] in Hrun;
      [| left; eexists _, _; split; [| exact Hrun]; cbn; auto].
    destruct (String.eqb_spec fname "") as [_|Hne]; cbn [negb] in Hrun;
      [left; eexists _, _; split; [| exact Hrun]; cbn; auto |].
    cbn [the_upload] in Hrun. rewrite Hf in Hrun. cbn [fst snd] in Hrun.
    destruct (String.eqb_spec (Py.lower (suffix (Path fname))) ".gltf") as [Hg|_].
    + right. right. exists form, f, fname, ".gltf". unfold accepted.
      repeat split; eauto.
    + destruct (String.eqb_spec (Py.lower (suffix (Path fname))) ".glb") as [Hg|_];
        cbn [orb negb] in Hrun.
      * right. right. exists form, f, fname, ".glb". unfold accepted.
        repeat split; eauto.
      * left. eexists _, _. split; [| exact Hrun]. cbn. auto 10.
  - change (negb (negb (String.eqb "" ""))) with true in Hrun. cbv iota in Hrun.
    left. eexists _, _. split; [| exact Hrun]. cbn. auto.
  - right. left. eauto.
Qed.

(** What a request that passes validation leaves behind when its upload
    is not stored. *)
Lemma unstored_dispatch (veo : collaborator) (req : request) (form : list part)
    (f : part) (fname sfx : string) (fs : filesystem) (cands : list string)
    (fd : list string) (tp : PurePath) (w1 : world) (e : exn) (content : string) :
  accepted env req form f fname sfx ->
  copy_failure (storage env) (file f) = Some (e, content) ->
  mkstemp sfx (UPLOAD_DIR env) (World fs cands []) = (Ok (fd, tp), w1) ->
  fs !! fd = None
  /\ serve (do_POST_with env veo req) fs cands
     = (Raise e, World (<[fd := File content]> fs) (names w1) []).
Proof.
  intros Hacc Hcopy Hmk.
  destruct (temp_file_written env _ content _ _ _ _ Hmk) as (Hnone & _).
  split; [exact Hnone |].
  unfold serve. rewrite (accepted_dispatch env _ _ _ _ _ _ _ Hacc).
  exact (store_and_dispatch_copy_fails env _ _ _ _ _ _ _ _ _ _ Hmk Hcopy).
Qed.

Lemma accepted_unique (req : request) (form form' : list part) (f f' : part)
    (fname fname' sfx sfx' : string) :
  accepted env req form f fname sfx ->
  accepted env req form' f' fname' sfx' ->
  form' = form /\ f' = f /\ sfx' = sfx.
Proof.
  intros (_ & _ & _ & Hform & Hitem & Hname & _ & Hsfx & _)
         (_ & _ & _ & Hform' & Hitem' & Hname' & _ & Hsfx' & _).
  rewrite Hform in Hform'. injection Hform' as <-.
  rewrite Hitem in Hitem'. injection Hitem' as <-.
  rewrite Hname in Hname'. injection Hname' as <-.
  subst. auto.
Qed.

(** X14: how a run of [do_POST] with the collaborator of the module ends.
    Either the file system is as the request found it, and the handler
    raised with nothing written or wrote one whole response whose status is
    200, 400, 404, 413 or 415; or the handler raised with nothing written
    and left one more file behind.  The second happens only to a request
    that passes validation and whose upload is not stored, and then,
    whenever the temporary file could be created, it does: lines 114-115
    run outside the try/finally, so the exception of the copy goes up and
    the temporary file stays, holding what was written of the upload. *)
Theorem X14_post_outcomes (req : request) (fs : filesystem)
    (cands : list string) :
  (settled fs (serve (do_POST env req) fs cands)
   \/ leftover fs (serve (do_POST env req) fs cands))
  /\ ((forall form f fname sfx,
         accepted env req form f fname sfx -> stored env f) ->
      settled fs (serve (do_POST env req) fs cands))
  /\ (forall form f fname sfx fd tp w1,
        accepted env req form f fname sfx ->
        ~ stored env f ->
        mkstemp sfx (UPLOAD_DIR env) (World fs cands []) = (Ok (fd, tp), w1) ->
        exists e content,
          copy_failure (storage env) (file f) = Some (e, content)
          /\ fs !! fd = None
          /\ serve (do_POST env req) fs cands
             = (Raise e, World (<[fd := File content]> fs) (names w1) [])).
Proof.
  assert (Hcases :
    forall form f fname sfx, accepted env req form f fname sfx ->
      (stored env f -> settled fs (serve (do_POST env req) fs cands))
      /\ (settled fs (serve (do_POST env req) fs cands)
          \/ leftover fs (serve (do_POST env req) fs cands))).
  { intros form f fname sfx Hacc.
    assert (Hst : stored env f -> settled fs (serve (do_POST env req) fs cands)).
    { intros Hst. unfold serve, do_POST.
      rewrite (accepted_dispatch env _ _ _ _ _ _ _ Hacc).
      now apply settled_dispatch. }
    split; [exact Hst |].
    destruct (copy_failure (storage env) (file f)) as [[e content]|] eqn:Hcopy;
      [| left; apply Hst; now apply copy_failure_stored].
    destruct (mkstemp sfx (UPLOAD_DIR env) (World fs cands []))
      as [[[fd tp]|e'] w1] eqn:Hmk.
    - destruct (unstored_dispatch veo_stub _ _ _ _ _ _ _ _ _ _ _ _ Hacc Hcopy Hmk)
        as [Hnone Hrun].
      right. exists e, fd, content. unfold do_POST. rewrite Hrun. auto.
    - left. unfold serve, do_POST.
      rewrite (accepted_dispatch env _ _ _ _ _ _ _ Hacc).
      unfold store_and_dispatch, bind. rewrite Hmk.
      apply mkstemp_inner_raise in Hmk as [Hfiles Hout]. cbn [files wfile] in *.
      destruct w1 as [fs1 names1 out1]. cbn in Hfiles, Hout. subst.
      apply settled_raise. }
  split; [| split].
  - destruct (post_cases veo_stub req (World fs cands []))
      as [(code & message & Hcode & Hrun) | [(e & Hrun) | (form & f & fname & sfx & Hacc)]].
    + left. unfold serve, do_POST. rewrite Hrun. now apply settled_error.
    + left. unfold serve, do_POST. rewrite Hrun. apply settled_raise.
    + exact (proj2 (Hcases _ _ _ _ Hacc)).
  - intros Hall.
    destruct (post_cases veo_stub req (World fs cands []))
      as [(code & message & Hcode & Hrun) | [(e & Hrun) | (form & f & fname & sfx & Hacc)]].
    + unfold serve, do_POST. rewrite Hrun. now apply settled_error.
    + unfold serve, do_POST. rewrite Hrun. apply settled_raise.
    + exact (proj1 (Hcases _ _ _ _ Hacc) (Hall _ _ _ _ Hacc)).
  - intros form f fname sfx fd tp w1 Hacc Hnot Hmk.
    destruct (copy_failure (storage env) (file f)) as [[e content]|] eqn:Hcopy;
      [| exfalso; apply Hnot; now apply copy_failure_stored].
    exists e, content. split; [reflexivity |].
    exact (unstored_dispatch veo_stub _ _ _ _ _ _ _ _ _ _ _ _ Hacc Hcopy Hmk).
Qed.

End Invariant.

Section Startup.

Variable env : environment.

Lemma parts_split_last (l : list string) :
  l <> [] -> l = List.removelast l ++ [List.last l ""].
Proof. apply List.app_removelast_last. Qed.

Lemma mkdir_run_cases (p : PurePath) (w : world) :
  (mkdir_exist_ok p w = (Ok tt, w) /\ stat (files w) p = Ok Dir)
  \/ (exists loc,
        mkdir_exist_ok p w
        = (Ok tt, World (<[loc := Dir]> (files w)) (names w) (wfile w))
        /\ files w !! loc = None
        /\ stat (<[loc := Dir]> (files w)) p = Ok Dir
        /\ stat (files w) p = Raise FileNotFoundError)
  \/ (exists e, mkdir_exist_ok p w = (Raise e, w) /\ stat (files w) p <> Ok Dir).
Proof.
  unfold mkdir_exist_ok, os_mkdir, is_dir.
  unfold get_files, put_files, ret, raise, bind. cbn [files names wfile].
  assert (Hstat0 : stat (files w) p
                   = match refused (parts p) with
                     | Some e => Raise e
                     | None =>
                         match walk (files w) [] (parts p) with
                         | Ok loc => match entry_at (files w) loc with
                                     | Some en => Ok en
                                     | None => Raise FileNotFoundError
                                     end
                         | Raise e => Raise e
                         end
                     end).
  { unfold stat, resolve. destruct (refused (parts p)); reflexivity. }
  destruct (refused (parts p)) as [e0|] eqn:Href.
  { right. right. exists e0. rewrite Hstat0.
    apply refused_cases in Href as [-> | ->]; destruct w; cbn;
      (split; [reflexivity | discriminate]). }
  destruct (parts p) as [|x l] eqn:Hparts.
  { left. rewrite Hstat0. cbn. destruct w; auto. }
  assert (Hne : x :: l <> []) by congruence.
  pose proof (parts_split_last _ Hne) as Hsplit.
  set (init := List.removelast (x :: l)) in *.
  set (leaf := List.last (x :: l) "") in *.
  assert (Hstat : stat (files w) p
                  = match walk (files w) [] init with
                    | Ok d =>
                        match walk (files w) d [leaf] with
                        | Ok loc => match entry_at (files w) loc with
                                    | Some en => Ok en
                                    | None => Raise FileNotFoundError
                                    end
                        | Raise e => Raise e
                        end
                    | Raise e => Raise e
                    end).
  { rewrite Hstat0, Hsplit, walk_app.
    destruct (walk (files w) [] init); reflexivity. }
  clear Hstat0.
  destruct (walk (files w) [] init) as [d|e] eqn:Hwalk.
  - cbn [walk] in Hstat.
    destruct (entry_at (files w) d) as [[c|]|] eqn:Hd.
    + right. right. exists NotADirectoryError. rewrite Hstat. destruct w. cbn.
      split; [reflexivity | discriminate].
    + destruct (String.eqb leaf "..") eqn:Hleaf.
      * rewrite Hstat.
        destruct (entry_at (files w) (List.removelast d)) as [[c|]|];
          destruct w; cbn; [right; right | left | right; right];
          try (eexists; split; [reflexivity | discriminate]); auto.
      * destruct (NAME_MAX <? fs_bytes leaf) eqn:Hlong.
        { right. right. exists (OSError ENAMETOOLONG). rewrite Hstat.
          destruct w. cbn. split; [reflexivity | discriminate]. }
        destruct (entry_at (files w) (d ++ [leaf])) as [en|] eqn:Hleafent.
        -- rewrite Hstat, Hleafent.
           destruct en as [c|]; destruct w; cbn; [right; right | left];
             try (eexists; split; [reflexivity | discriminate]); auto.
        -- right. left. exists (d ++ [leaf]).
           apply entry_at_lookup in Hleafent as Hl. destruct Hl as [Hnone Hnil].
           split; [reflexivity |]. split; [exact Hnone |]. split; [| exact Hstat].
           unfold stat, resolve. rewrite Hparts, Href, Hsplit, walk_app.
           rewrite (walk_insert_fresh _ _ _ _ _ _ Hleafent Hwalk).
           cbn [walk]. rewrite entry_at_insert_ne by congruence.
           rewrite Hd, Hleaf, Hlong.
           rewrite entry_at_insert_eq by exact Hnil.
           rewrite entry_at_insert_eq by exact Hnil. reflexivity.
    + right. right. exists FileNotFoundError. rewrite Hstat. destruct w. cbn.
      split; [reflexivity | discriminate].
  - right. right. exists e. rewrite Hstat.
    apply walk_errors in Hwalk as [-> | [-> | ->]]; destruct w; cbn;
      (split; [reflexivity | discriminate]).
Qed.

(** X15: creating the scratch directory when the module is loaded is safe
    to repeat: when it returns the directory exists, and no entry that was
    there before is changed; when the directory is already there nothing
    changes at all; and when it raises the file system is as before and
    the path is still not a directory. *)
Theorem X15_module_init_creates_scratch_directory (w : world) :
  (fst (module_init env w) = Ok tt ->
   stat (files (snd (module_init env w))) (UPLOAD_DIR env) = Ok Dir)
  /\ files w ⊆ files (snd (module_init env w))
  /\ (stat (files w) (UPLOAD_DIR env) = Ok Dir -> module_init env w = (Ok tt, w))
  /\ (forall e, fst (module_init env w) = Raise e ->
                snd (module_init env w) = w
                /\ stat (files w) (UPLOAD_DIR env) <> Ok Dir).
Proof.
  unfold module_init.
  destruct (mkdir_run_cases (UPLOAD_DIR env) w)
    as [[Hrun Hstat] | [(loc & Hrun & Hnone & Hafter & Hbefore) | (e & Hrun & Hstat)]];
    rewrite Hrun; cbn [fst snd files].
  - split; [auto |]. split; [reflexivity |]. split; [auto |].
    intros e He. discriminate.
  - split; [auto |]. split; [now apply insert_subseteq |].
    split; [rewrite Hbefore; discriminate |]. intros e He. discriminate.
  - split; [discriminate |]. split; [reflexivity |].
    split; [intros H; now apply Hstat in H |]. intros e' _. split; [reflexivity | exact Hstat].
Qed.

End Startup.

(** ** The further properties on the concrete deployment *)

(** X1 on a name of 300 characters and on a path of 4200 bytes: the
    [OSError] goes up and nothing is written; and on a path with a NUL,
    which is answered 404. *)
Lemma X1_get_outcomes_witness :
  stat Demo.fs (get_target (Demo.env (Ok [])) (path Cases.long_name))
  = Raise (OSError ENAMETOOLONG)
  /\ serve (do_GET (Demo.env (Ok [])) Cases.long_name) Demo.fs []
     = (Raise (OSError ENAMETOOLONG), World Demo.fs [] [])
  /\ serve (do_GET (Demo.env (Ok [])) Cases.long_path) Demo.fs []
     = (Raise (OSError ENAMETOOLONG), World Demo.fs [] [])
  /\ response_status
       (wfile (snd (serve (do_GET (Demo.env (Ok []))
                             (Request (String "/" (String zero "")) [] ""))
                      Demo.fs [])))
     = Some 404.
Proof.
  assert (H1 : stat Demo.fs (get_target (Demo.env (Ok [])) (path Cases.long_name))
               = Raise (OSError ENAMETOOLONG)) by (vm_compute; reflexivity).
  pose proof (proj1 (proj2 (X1_get_outcomes (Demo.env (Ok [])) Cases.long_name
                               Demo.fs []))) as Hname.
  try rewrite H1 in Hname. destruct Hname as [_ Hname].
  pose proof (proj2 (proj2 (X1_get_outcomes (Demo.env (Ok [])) Cases.long_path
                               Demo.fs []))) as Hpath.
  assert (H2 : stat Demo.fs
                 (get_target (Demo.env (Ok [])) (String "/" (String zero "")))
               = Raise ValueError) by (vm_compute; reflexivity).
  pose proof (proj1 (proj2 (X1_get_outcomes (Demo.env (Ok []))
                               (Request (String "/" (String zero "")) [] "")
                               Demo.fs []))) as Hnul.
  cbn [path] in Hnul. try rewrite H2 in Hnul. destruct Hnul as (_ & _ & Hnul & _).
  split; [exact H1 |]. split; [exact Hname |]. split; [| exact Hnul].
  apply Hpath; [vm_compute; reflexivity | vm_compute; discriminate].
Defined.

(** X2 on /index.html?v=3, asked with other headers and another body. *)
Lemma X2_query_string_is_ignored_witness :
  "/index.html" <> "/"
  /\ "/index.html" <> ""
  /\ serve (do_GET (Demo.env (Ok [])) (Request "/index.html?v=3" [("Accept", "*/*")] "x"))
       Demo.fs []
     = serve (do_GET (Demo.env (Ok [])) (Request "/index.html" [] "")) Demo.fs [].
Proof.
  assert (H1 : "/index.html" <> "/") by discriminate.
  assert (H2 : "/index.html" <> "") by discriminate.
  exact (conj H1 (conj H2
           (proj2 (X2_query_string_is_ignored (Demo.env (Ok [])) "/index.html" "v=3"
                     [("Accept", "*/*")] [] "x" "" Demo.fs [] H1 H2)))).
Defined.

(** X3 on /?lang=en. *)
Lemma X3_index_with_query_is_404_witness :
  stat Demo.fs (PUBLIC_DIR (Demo.env (Ok []))) = Ok Dir
  /\ response_status
       (wfile (snd (serve (do_GET (Demo.env (Ok [])) Cases.index_query) Demo.fs [])))
     = Some 404.
Proof.
  assert (H1 : stat Demo.fs (PUBLIC_DIR (Demo.env (Ok []))) = Ok Dir)
    by (vm_compute; reflexivity).
  exact (conj H1
           (proj2 (X3_index_with_query_is_404 (Demo.env (Ok [])) "lang=en" [] ""
                     Demo.fs [] H1))).
Defined.

(** X5 on /css/../css/./site.css?v=3. *)
Lemma X5_without_leading_dotdot_under_root_witness :
  hd_error (parts (_translate_path (path Cases.detour))) <> Some ".."
  /\ response_status
       (wfile (snd (serve (do_GET (Demo.env (Ok [])) Cases.detour) Cases.styled_fs [])))
     = Some 200
  /\ exists root_loc loc content,
       resolve Cases.styled_fs (PUBLIC_DIR (Demo.env (Ok []))) = Ok root_loc
       /\ root_loc `prefix_of` loc
       /\ entry_at Cases.styled_fs loc = Some (File content)
       /\ response_body
            (wfile (snd (serve (do_GET (Demo.env (Ok [])) Cases.detour)
                           Cases.styled_fs [])))
          = content.
Proof.
  assert (H1 : hd_error (parts (_translate_path (path Cases.detour))) <> Some "..")
    by (vm_compute; discriminate).
  assert (H2 : response_status
                 (wfile (snd (serve (do_GET (Demo.env (Ok [])) Cases.detour)
                                Cases.styled_fs [])))
               = Some 200) by (vm_compute; reflexivity).
  exact (conj H1 (conj H2
           (X5_without_leading_dotdot_under_root (Demo.env (Ok [])) Cases.detour
              Cases.styled_fs [] H1 H2))).
Defined.

(** X6 on SITE.CSS. *)
Lemma X6_capital_extension_is_octet_stream_witness :
  Py.lower (suffix (Path "/app/public/SITE.CSS")) <> suffix (Path "/app/public/SITE.CSS")
  /\ _guess_type (Path "/app/public/SITE.CSS") = "application/octet-stream".
Proof.
  assert (H1 : Py.lower (suffix (Path "/app/public/SITE.CSS"))
               <> suffix (Path "/app/public/SITE.CSS"))
    by (vm_compute; discriminate).
  exact (conj H1 (X6_capital_extension_is_octet_stream (Path "/app/public/SITE.CSS") H1)).
Defined.

(** X7 on /api/generate?dry=1 and on Multipart/Form-Data. *)
Lemma X7_path_then_content_type_witness :
  path Cases.post_with_query <> "/api/generate"
  /\ serve (do_POST_with (Demo.env Demo.parser_reached) Demo.failing_veo
              Cases.post_with_query) Demo.fs Demo.candidates
     = serve (send_error (Demo.env Demo.parser_reached) NOT_FOUND "Unknown endpoint")
         Demo.fs Demo.candidates
  /\ content_type Cases.capitalised <> "multipart/form-data"
  /\ serve (do_POST_with (Demo.env Demo.parser_reached) Demo.failing_veo
              Cases.capitalised) Demo.fs Demo.candidates
     = serve (send_error (Demo.env Demo.parser_reached) BAD_REQUEST
                "Expected multipart/form-data")
         Demo.fs Demo.candidates.
Proof.
  assert (H1 : path Cases.post_with_query <> "/api/generate")
    by (vm_compute; discriminate).
  assert (H2 : path Cases.capitalised = "/api/generate") by reflexivity.
  assert (H3 : content_type Cases.capitalised <> "multipart/form-data")
    by (vm_compute; discriminate).
  exact (conj H1 (conj
           (proj1 (X7_path_then_content_type (Demo.env Demo.parser_reached)
                     Demo.failing_veo Cases.post_with_query Demo.fs Demo.candidates)
              H1)
           (conj H3
              (proj1 (proj2 (X7_path_then_content_type (Demo.env Demo.parser_reached)
                               Demo.failing_veo Cases.capitalised Demo.fs
                               Demo.candidates))
                 H2 H3)))).
Defined.

(** X8 on a Content-Length of 12 bytes, spelled with its unit. *)
Lemma X8_unreadable_length_raises_witness :
  path Cases.padded_length = "/api/generate"
  /\ content_type Cases.padded_length = "multipart/form-data"
  /\ declared_length Cases.padded_length = Raise ValueError
  /\ serve (do_POST_with (Demo.env Demo.parser_reached) Demo.failing_veo
              Cases.padded_length) Demo.fs Demo.candidates
     = (Raise ValueError, World Demo.fs Demo.candidates [])
  /\ declared_length Cases.bad_length = Raise ValueError
  /\ serve (do_POST_with (Demo.env Demo.parser_reached) Demo.failing_veo
              Cases.bad_length) Demo.fs Demo.candidates
     = (Raise ValueError, World Demo.fs Demo.candidates []).
Proof.
  assert (H1 : path Cases.padded_length = "/api/generate") by reflexivity.
  assert (H2 : content_type Cases.padded_length = "multipart/form-data")
    by reflexivity.
  assert (H3 : declared_length Cases.padded_length = Raise ValueError)
    by reflexivity.
  assert (H4 : path Cases.bad_length = "/api/generate") by reflexivity.
  assert (H5 : content_type Cases.bad_length = "multipart/form-data") by reflexivity.
  assert (H6 : declared_length Cases.bad_length = Raise ValueError) by reflexivity.
  exact (conj H1 (conj H2 (conj H3
           (conj (proj2 (X8_unreadable_length_raises (Demo.env Demo.parser_reached)
                           Demo.failing_veo Cases.padded_length ValueError Demo.fs
                           Demo.candidates H1 H2 H3))
              (conj H6
                 (proj2 (X8_unreadable_length_raises (Demo.env Demo.parser_reached)
                           Demo.failing_veo Cases.bad_length ValueError Demo.fs
                           Demo.candidates H4 H5 H6))))))).
Defined.

(** X9 on a form with the parts a.glb and b.glb, both named model. *)
Lemma X9_twin_or_plain_model_is_400_witness :
  List.filter (named "model") Cases.twin_form = Cases.twin_form
  /\ serve (do_POST_with (Demo.env (Ok Cases.twin_form)) Demo.failing_veo Demo.upload)
       Demo.fs Demo.candidates
     = serve (send_error (Demo.env (Ok Cases.twin_form)) BAD_REQUEST
                "Missing model file upload")
         Demo.fs Demo.candidates.
Proof.
  assert (H1 : path Demo.upload = "/api/generate") by reflexivity.
  assert (H2 : content_type Demo.upload = "multipart/form-data") by reflexivity.
  assert (H3 : declared_length Demo.upload = Ok 4096) by reflexivity.
  assert (H4 : 4096 <= MAX_UPLOAD) by (unfold MAX_UPLOAD; lia).
  assert (H5 : FieldStorage (Demo.env (Ok Cases.twin_form)) Demo.upload
               = Ok Cases.twin_form) by reflexivity.
  assert (H6 : List.filter (named "model") Cases.twin_form = Cases.twin_form)
    by reflexivity.
  exact (conj H6
           (X9_twin_or_plain_model_is_400 (Demo.env (Ok Cases.twin_form))
              Demo.failing_veo Demo.upload 4096 Cases.twin_form Demo.fs
              Demo.candidates H1 H2 H3 H4 H5
              (or_introl (ex_intro _ _ (ex_intro _ _ (ex_intro _ _ H6)))))).
Defined.

(** X10 where the first candidate name is taken by a file of someone
    else: the upload is answered and that file is still there. *)
Lemma X10_stored_upload_is_answered_witness :
  stat Cases.taken_fs (UPLOAD_DIR (Demo.env (Ok Demo.car_form))) = Ok Dir
  /\ stat Cases.taken_fs
       (UPLOAD_DIR (Demo.env (Ok Demo.car_form)) // MkPath "" ["tmp" +:+ "k3x9_q0a" +:+ ".glb"])
     = Ok (File "someone else's")
  /\ stat Cases.taken_fs
       (UPLOAD_DIR (Demo.env (Ok Demo.car_form)) // MkPath "" ["tmp" +:+ "zz81mw4c" +:+ ".glb"])
     = Raise FileNotFoundError
  /\ prompt_or_default (prompt_of Demo.car_form) = PyStr "ad for a car"
  /\ fst (serve (do_POST (Demo.env (Ok Demo.car_form)) Demo.upload)
            Cases.taken_fs Demo.candidates) = Ok tt
  /\ response_status
       (wfile (snd (serve (do_POST (Demo.env (Ok Demo.car_form)) Demo.upload)
                      Cases.taken_fs Demo.candidates)))
     = Some 200
  /\ files (snd (serve (do_POST (Demo.env (Ok Demo.car_form)) Demo.upload)
                   Cases.taken_fs Demo.candidates))
     = Cases.taken_fs.
Proof.
  assert (H1 : stat Cases.taken_fs (UPLOAD_DIR (Demo.env (Ok Demo.car_form))) = Ok Dir)
    by (vm_compute; reflexivity).
  assert (H2 : stat Cases.taken_fs
                 (UPLOAD_DIR (Demo.env (Ok Demo.car_form))
                  // MkPath "" ["tmp" +:+ "k3x9_q0a" +:+ ".glb"])
               = Ok (File "someone else's")) by (vm_compute; reflexivity).
  assert (H3 : stat Cases.taken_fs
                 (UPLOAD_DIR (Demo.env (Ok Demo.car_form))
                  // MkPath "" ["tmp" +:+ "zz81mw4c" +:+ ".glb"])
               = Raise FileNotFoundError) by (vm_compute; reflexivity).
  assert (H4 : prompt_or_default (prompt_of Demo.car_form) = PyStr "ad for a car")
    by reflexivity.
  assert (H5 : Forall (fun c => exists en,
                         stat Cases.taken_fs
                           (UPLOAD_DIR (Demo.env (Ok Demo.car_form))
                            // MkPath "" ["tmp" +:+ c +:+ ".glb"]) = Ok en)
                 ["k3x9_q0a"])
    by (constructor; [eexists; exact H2 | constructor]).
  pose proof (X10_stored_upload_is_answered (Demo.env (Ok Demo.car_form))
                Demo.upload Demo.car_form _ "car.glb" ".glb" Cases.taken_fs
                ["k3x9_q0a"] "zz81mw4c" [] car_upload_accepted car_upload_stored H1
                H5 H3 (ex_intro _ _ H4))
    as (Hok & Hstatus & _ & _ & _ & Hfiles).
  exact (conj H1 (conj H2 (conj H3 (conj H4 (conj Hok (conj Hstatus Hfiles)))))).
Defined.

(** The upload of car.glb with a prompt sent as a file passes validation. *)
Lemma file_prompt_accepted :
  accepted (Demo.env (Ok Cases.file_prompt_form)) Demo.upload Cases.file_prompt_form
    (Part (Some "model") (Some "car.glb") "glTF") "car.glb" ".glb".
Proof.
  unfold accepted. repeat split; try reflexivity.
  - exists 4096. split; [reflexivity | unfold MAX_UPLOAD; lia].
  - discriminate.
  - now right.
Qed.

Lemma file_prompt_mkstemp :
  mkstemp ".glb" (UPLOAD_DIR (Demo.env (Ok Cases.file_prompt_form)))
    (World Demo.fs Demo.candidates [])
  = (Ok (Demo.temp_fd, Demo.temp_path), Demo.after_mkstemp).
Proof. vm_compute. reflexivity. Qed.

(** X11 on a prompt uploaded as the file prompt.txt. *)
Lemma X11_bytes_prompt_raises_type_error_witness :
  prompt_of Cases.file_prompt_form = Some (PyBytes "ad for a car")
  /\ serve (do_POST (Demo.env (Ok Cases.file_prompt_form)) Demo.upload)
       Demo.fs Demo.candidates
     = (Raise TypeError, World Demo.fs (names Demo.after_mkstemp) []).
Proof.
  assert (H1 : prompt_of Cases.file_prompt_form = Some (PyBytes "ad for a car"))
    by reflexivity.
  exact (conj H1
           (X11_bytes_prompt_raises_type_error (Demo.env (Ok Cases.file_prompt_form))
              Demo.upload Cases.file_prompt_form _ "car.glb" ".glb" Demo.fs
              Demo.candidates Demo.temp_fd Demo.temp_path Demo.after_mkstemp
              "a"%char "d for a car" file_prompt_accepted car_upload_stored H1
              file_prompt_mkstemp)).
Defined.

(** X12 on the upload of car.glb. *)
Lemma X12_collaborator_reads_the_upload_witness :
  response_body
    (wfile (snd (serve (do_POST_with (Demo.env (Ok Demo.car_form)) reading_veo
                          Demo.upload) Demo.fs Demo.candidates)))
  = Json.object [("read", "glTF")]
  /\ files (snd (serve (do_POST_with (Demo.env (Ok Demo.car_form)) reading_veo
                         Demo.upload) Demo.fs Demo.candidates))
     = Demo.fs.
Proof.
  exact (proj2 (X12_collaborator_reads_the_upload (Demo.env (Ok Demo.car_form))
                  Demo.upload Demo.car_form _ "car.glb" ".glb" Demo.fs
                  Demo.candidates Demo.temp_fd Demo.temp_path Demo.after_mkstemp
                  car_upload_accepted car_upload_stored car_upload_mkstemp)).
Defined.

(** X13 on a deployment without the uploads directory. *)
Lemma X13_missing_scratch_directory_witness :
  stat Cases.fresh_fs (UPLOAD_DIR (Demo.env (Ok Demo.car_form)))
  = Raise FileNotFoundError
  /\ serve (do_POST_with (Demo.env (Ok Demo.car_form)) Demo.failing_veo Demo.upload)
       Cases.fresh_fs ["k3x9_q0a"; "zz81mw4c"]
     = (Raise FileNotFoundError, World Cases.fresh_fs ["zz81mw4c"] []).
Proof.
  assert (H1 : stat Cases.fresh_fs (UPLOAD_DIR (Demo.env (Ok Demo.car_form)))
               = Raise FileNotFoundError) by (vm_compute; reflexivity).
  exact (conj H1
           (X13_missing_scratch_directory (Demo.env (Ok Demo.car_form))
              Demo.failing_veo Demo.upload Demo.car_form _ "car.glb" ".glb"
              Cases.fresh_fs "k3x9_q0a" ["zz81mw4c"] car_upload_accepted H1)).
Defined.

(** X14 on an upload whose model part is itself multipart, and on the
    upload of car.glb to a device that is full after two bytes: the
    temporary file stays, empty in the first case and with the two bytes
    in the second. *)
Lemma nested_upload_accepted :
  accepted (Demo.env (Ok Cases.nested_form)) Demo.upload Cases.nested_form
    (Multi (Some "model") (Some "car.glb") [Part None None "glTF"])
    "car.glb" ".glb".
Proof.
  unfold accepted. repeat split; try reflexivity.
  - exists 4096. split; [reflexivity | unfold MAX_UPLOAD; lia].
  - discriminate.
  - now right.
Qed.

Lemma full_disk_accepted :
  accepted (Cases.full_disk 2 (Ok Demo.car_form)) Demo.upload Demo.car_form
    (Part (Some "model") (Some "car.glb") "glTF") "car.glb" ".glb".
Proof.
  unfold accepted. repeat split; try reflexivity.
  - exists 4096. split; [reflexivity | unfold MAX_UPLOAD; lia].
  - discriminate.
  - now right.
Qed.

Lemma X14_post_outcomes_witness :
  ~ stored (Demo.env (Ok Cases.nested_form))
      (Multi (Some "model") (Some "car.glb") [Part None None "glTF"])
  /\ serve (do_POST (Demo.env (Ok Cases.nested_form)) Demo.upload)
       Demo.fs Demo.candidates
     = (Raise AttributeError,
        World (<[Demo.temp_fd := File ""]> Demo.fs) ["zz81mw4c"] [])
  /\ ~ stored (Cases.full_disk 2 (Ok Demo.car_form))
        (Part (Some "model") (Some "car.glb") "glTF")
  /\ serve (do_POST (Cases.full_disk 2 (Ok Demo.car_form)) Demo.upload)
       Demo.fs Demo.candidates
     = (Raise (OSError ENOSPC),
        World (<[Demo.temp_fd := File "gl"]> Demo.fs) ["zz81mw4c"] [])
  /\ settled Demo.fs
       (serve (do_POST (Demo.env (Ok Demo.car_form)) Demo.upload)
          Demo.fs Demo.candidates).
Proof.
  assert (H1 : ~ stored (Demo.env (Ok Cases.nested_form))
                 (Multi (Some "model") (Some "car.glb") [Part None None "glTF"]))
    by (intros [H _]; discriminate).
  assert (H2 : ~ stored (Cases.full_disk 2 (Ok Demo.car_form))
                 (Part (Some "model") (Some "car.glb") "glTF"))
    by (intros [_ H]; discriminate).
  assert (M1 : mkstemp ".glb" (UPLOAD_DIR (Demo.env (Ok Cases.nested_form)))
                 (World Demo.fs Demo.candidates [])
               = (Ok (Demo.temp_fd, Demo.temp_path), Demo.after_mkstemp))
    by (vm_compute; reflexivity).
  assert (M2 : mkstemp ".glb" (UPLOAD_DIR (Cases.full_disk 2 (Ok Demo.car_form)))
                 (World Demo.fs Demo.candidates [])
               = (Ok (Demo.temp_fd, Demo.temp_path), Demo.after_mkstemp))
    by (vm_compute; reflexivity).
  destruct (proj2 (proj2 (X14_post_outcomes (Demo.env (Ok Cases.nested_form))
                            Demo.upload Demo.fs Demo.candidates))
              _ _ _ _ _ _ _ nested_upload_accepted H1 M1)
    as (e1 & c1 & Hcopy1 & _ & Hrun1).
  injection Hcopy1 as <- <-.
  destruct (proj2 (proj2 (X14_post_outcomes (Cases.full_disk 2 (Ok Demo.car_form))
                            Demo.upload Demo.fs Demo.candidates))
              _ _ _ _ _ _ _ full_disk_accepted H2 M2)
    as (e2 & c2 & Hcopy2 & _ & Hrun2).
  injection Hcopy2 as <- <-.
  split; [exact H1 |]. split; [exact Hrun1 |]. split; [exact H2 |].
  split; [exact Hrun2 |].
  apply (proj1 (proj2 (X14_post_outcomes (Demo.env (Ok Demo.car_form))
                         Demo.upload Demo.fs Demo.candidates))).
  intros form f fname sfx (_ & _ & _ & Hform & Hitem & _).
  injection Hform as <-. injection Hitem as <-. split; reflexivity.
Defined.

(** X15 on a deployment without the uploads directory, on one that has it,
    and on one where a regular file is in its place. *)
Lemma X15_module_init_creates_scratch_directory_witness :
  fst (module_init (Demo.env (Ok [])) (World Cases.fresh_fs [] [])) = Ok tt
  /\ stat (files (snd (module_init (Demo.env (Ok [])) (World Cases.fresh_fs [] []))))
       (UPLOAD_DIR (Demo.env (Ok []))) = Ok Dir
  /\ stat Demo.fs (UPLOAD_DIR (Demo.env (Ok []))) = Ok Dir
  /\ module_init (Demo.env (Ok [])) (World Demo.fs [] []) = (Ok tt, World Demo.fs [] [])
  /\ fst (module_init (Demo.env (Ok [])) (World Cases.blocked_fs [] []))
     = Raise FileExistsError
  /\ snd (module_init (Demo.env (Ok [])) (World Cases.blocked_fs [] []))
     = World Cases.blocked_fs [] [].
Proof.
  assert (H1 : fst (module_init (Demo.env (Ok [])) (World Cases.fresh_fs [] []))
               = Ok tt) by (vm_compute; reflexivity).
  assert (H2 : stat Demo.fs (UPLOAD_DIR (Demo.env (Ok []))) = Ok Dir)
    by (vm_compute; reflexivity).
  assert (H3 : fst (module_init (Demo.env (Ok [])) (World Cases.blocked_fs [] []))
               = Raise FileExistsError) by (vm_compute; reflexivity).
  exact (conj H1
           (conj (proj1 (X15_module_init_creates_scratch_directory
                           (Demo.env (Ok [])) (World Cases.fresh_fs [] [])) H1)
              (conj H2
                 (conj (proj1 (proj2 (proj2
                          (X15_module_init_creates_scratch_directory
                             (Demo.env (Ok [])) (World Demo.fs [] []))))
                          H2)
                    (conj H3
                       (proj1 (proj2 (proj2 (proj2
                          (X15_module_init_creates_scratch_directory
                             (Demo.env (Ok [])) (World Cases.blocked_fs [] []))))
                          FileExistsError H3))))))).
Defined.

(** X16 on a collaborator that cannot reach its provider. *)
Lemma X16_collaborator_failure_goes_up_witness :
  Demo.failing_veo Demo.temp_path (prompt_of Demo.car_form)
    (World (<[Demo.temp_fd := File "glTF"]> Demo.fs) (names Demo.after_mkstemp) [])
  = (Raise (Exception "Veo is unreachable"),
     World (<[Demo.temp_fd := File "glTF"]> Demo.fs) (names Demo.after_mkstemp) [])
  /\ serve (do_POST_with (Demo.env (Ok Demo.car_form)) Demo.failing_veo Demo.upload)
       Demo.fs Demo.candidates
     = (Raise (Exception "Veo is unreachable"),
        World Demo.fs (names Demo.after_mkstemp) []).
Proof.
  assert (H1 : Demo.failing_veo Demo.temp_path (prompt_of Demo.car_form)
                 (World (<[Demo.temp_fd := File "glTF"]> Demo.fs)
                    (names Demo.after_mkstemp) [])
               = (Raise (Exception "Veo is unreachable"),
                  World (<[Demo.temp_fd := File "glTF"]> Demo.fs)
                    (names Demo.after_mkstemp) [])) by reflexivity.
  exact (conj H1
           (X16_collaborator_failure_goes_up (Demo.env (Ok Demo.car_form))
              Demo.failing_veo Demo.upload Demo.car_form _ "car.glb" ".glb"
              Demo.fs Demo.candidates Demo.temp_fd Demo.temp_path
              Demo.after_mkstemp (Exception "Veo is unreachable")
              car_upload_accepted car_upload_stored car_upload_mkstemp H1)).
Defined.
